(** * The model registry of [src/lib/ai/models.ts]

    A shallow embedding of the provider/model registry: presence flags read
    from the environment, the conditionally built static catalog, the merge
    with the OpenAI-compatible (dynamic) catalog, the set of handles without
    tool calling, the start-up choice of the fallback model and [getModel].

    The module is JavaScript, so the embedding keeps what the language does
    with the objects the module builds: strings are sequences of UTF-16 code
    units, an object literal is a list of own properties in enumeration order
    whose prototype is [%Object.prototype%], and a property read that misses
    the own properties continues along the prototype chain. *)

From Stdlib Require Import List NArith ZArith String Ascii Bool Lia.
Import ListNotations.

Set Implicit Arguments.

(** ** JavaScript strings *)

Module JsString.

(** A string value is a finite sequence of 16-bit code units. *)
Definition t := list N.

(** An ASCII literal of the source text. *)
Definition lit (s : string) : t :=
  List.map N_of_ascii (list_ascii_of_string s).

Fixpoint eqb (a b : t) : bool :=
  match a, b with
  | [], [] => true
  | x :: a', y :: b' => N.eqb x y && eqb a' b'
  | _, _ => false
  end.

(** WhiteSpace and LineTerminator code points, the ones
    [String.prototype.trim] strips: TAB, LF, VT, FF, CR, SP, NBSP, U+1680,
    U+2000..U+200A, U+2028, U+2029, U+202F, U+205F, U+3000 and U+FEFF. *)
Definition is_white_space (c : N) : bool :=
  (existsb (N.eqb c)
     [9; 10; 11; 12; 13; 32; 160; 5760; 8232; 8233; 8239; 8287; 12288; 65279]
   || (N.leb 8192 c && N.leb c 8202))%N.

Fixpoint trim_start (s : t) : t :=
  match s with
  | c :: s' => if is_white_space c then trim_start s' else s
  | [] => []
  end.

Definition trim_end (s : t) : t := rev (trim_start (rev s)).

(** [s.trim()] *)
Definition trim (s : t) : t := trim_end (trim_start s).

(** [s.includes(sep)] for a separator of one code unit. *)
Definition includes (sep : N) (s : t) : bool := existsb (N.eqb sep) s.

(** [s.split(sep)] for a separator of one code unit: the pieces between
    the occurrences of [sep], never an empty array. *)
Fixpoint split (sep : N) (s : t) : list t :=
  match s with
  | [] => [[]]
  | c :: s' =>
      if N.eqb c sep then [] :: split sep s'
      else match split sep s' with
           | piece :: pieces => (c :: piece) :: pieces
           | [] => [[c]]
           end
  end.

(** [s.split(sep, limit)]: the array is truncated to [limit] pieces, the
    rest of the string is dropped. *)
Definition split_limit (sep : N) (limit : nat) (s : t) : list t :=
  firstn limit (split sep s).

Definition slash : N := 47%N.

End JsString.

Definition jsstring : Type := JsString.t.
Notation "'js' s" := (JsString.lit s) (at level 1, s at level 0, only parsing).

(** ** Plain objects *)

Module JsObject.

(** The own enumerable string-keyed properties of an object, in the order
    [Object.keys] lists them.  The dynamic catalog reaches this module as an
    object and is taken in that order; every key the module itself adds is
    the name of a first-party provider or of one of its models, none of
    which is an array index, so a write to a new key goes to the end of the
    list. *)
Definition t (V : Type) := list (jsstring * V).

Section Ops.
Variable V : Type.

Definition empty : t V := [].

(** The own property [k], if there is one. *)
Fixpoint own (o : t V) (k : jsstring) : option V :=
  match o with
  | [] => None
  | (k', v) :: o' => if JsString.eqb k k' then Some v else own o' k
  end.

(** [o[k] = v]: an existing own property keeps its place. *)
Fixpoint set (o : t V) (k : jsstring) (v : V) : t V :=
  match o with
  | [] => [(k, v)]
  | (k', v') :: o' =>
      if JsString.eqb k k' then (k', v) :: o' else (k', v') :: set o' k v
  end.

(** The effect of [...src] inside an object literal being built as
    [target]: each own property of [src] is written in turn. *)
Definition spread (target src : t V) : t V :=
  fold_left (fun o kv => set o (fst kv) (snd kv)) src target.

(** [Object.keys(o)] and [Object.values(o)] *)
Definition keys (o : t V) : list jsstring := List.map fst o.
Definition values (o : t V) : list V := List.map snd o.

End Ops.

End JsObject.

Definition Obj (V : Type) : Type := JsObject.t V.

(** ** Values, completions and the prototype chain *)

(** An opaque model handle.  A handle is an object and is compared by
    identity.  Each first-party handle is created once, by one call of its
    provider's constructor with one model id, so the pair names the object;
    the handles of the dynamic catalog are created elsewhere and are known
    here only by their identity.  [Ollama] records the [baseURL] option the
    module passes to [createOllama]; what the library makes of that option
    is not part of the module. *)
Inductive Backend :=
| OpenAI | Google | Anthropic | XAI | OpenRouter
| Ollama (baseURL : jsstring).

Inductive LanguageModel :=
| FirstParty (backend : Backend) (modelId : jsstring)
| Compatible (ref : N).

(** What a property read in this module can evaluate to.  The type of
    [getModel] promises a [LanguageModel]; at run time a read that leaves the
    own properties yields whatever the prototype chain holds. *)
Inductive Value :=
| VUndefined
| VNull
| VString (s : jsstring)
| VNumber (n : Z)
| VModel (h : LanguageModel)
| VObjectPrototype
| VFunctionPrototype
| VBuiltin (intrinsic : string).

Inductive Exception :=
| TypeError
| Error (message : string).

Inductive Completion (A : Type) :=
| Normal (a : A)
| Throw (e : Exception).
Arguments Normal {A} a.
Arguments Throw {A} e.

(** ToBoolean *)
Definition truthy (v : Value) : bool :=
  match v with
  | VUndefined | VNull => false
  | VString s => negb (JsString.eqb s [])
  | VNumber n => negb (Z.eqb n 0)
  | _ => true
  end.

Module Proto.

Local Open Scope string_scope.

(** A function-valued property of [%Object.prototype%]: the key it is
    found under, the intrinsic it holds, and that function's own ["name"]
    and ["length"]. *)
Record method := Method {
  key : string;
  intrinsic : string;
  name : string;
  arity : Z
}.

Definition object_prototype_methods : list method :=
  [ Method "constructor" "Object" "Object" 1;
    Method "hasOwnProperty" "Object.prototype.hasOwnProperty" "hasOwnProperty" 1;
    Method "isPrototypeOf" "Object.prototype.isPrototypeOf" "isPrototypeOf" 1;
    Method "propertyIsEnumerable" "Object.prototype.propertyIsEnumerable"
           "propertyIsEnumerable" 1;
    Method "toLocaleString" "Object.prototype.toLocaleString" "toLocaleString" 0;
    Method "toString" "Object.prototype.toString" "toString" 0;
    Method "valueOf" "Object.prototype.valueOf" "valueOf" 0;
    Method "__defineGetter__" "Object.prototype.__defineGetter__"
           "__defineGetter__" 2;
    Method "__defineSetter__" "Object.prototype.__defineSetter__"
           "__defineSetter__" 2;
    Method "__lookupGetter__" "Object.prototype.__lookupGetter__"
           "__lookupGetter__" 1;
    Method "__lookupSetter__" "Object.prototype.__lookupSetter__"
           "__lookupSetter__" 1 ].

Definition find_method (k : jsstring) : option method :=
  find (fun m => JsString.eqb k (JsString.lit (key m))) object_prototype_methods.

Definition named (name : string) (k : jsstring) : bool :=
  JsString.eqb k (JsString.lit name).

Definition among (names : list string) (k : jsstring) : bool :=
  existsb (fun n => named n k) names.

(** The function properties of the [Object] constructor. *)
Definition object_statics : list string :=
  [ "assign"; "create"; "defineProperties"; "defineProperty"; "entries";
    "freeze"; "fromEntries"; "getOwnPropertyDescriptor";
    "getOwnPropertyDescriptors"; "getOwnPropertyNames";
    "getOwnPropertySymbols"; "getPrototypeOf"; "groupBy"; "hasOwn"; "is";
    "isExtensible"; "isFrozen"; "isSealed"; "keys"; "preventExtensions";
    "seal"; "setPrototypeOf"; "values" ].

Definition find_name (names : list string) (k : jsstring) : option string :=
  find (fun n => named n k) names.

Definition function_prototype_methods : list string :=
  [ "apply"; "bind"; "call"; "toString" ].

(** What the first read of [o?.[p]?.[m]] can hold when [o] is a registry. *)
Inductive holder (V : Type) :=
| HUndefined
| HOwn (v : V)
| HObjectPrototype
| HMethod (f : method).
Arguments HUndefined {V}.
Arguments HOwn {V} v.
Arguments HObjectPrototype {V}.
Arguments HMethod {V} f.

(** [Get] on an object literal whose own properties are [o]: the own
    property, else the property of [%Object.prototype%]; the ["__proto__"]
    accessor answers with the prototype of the receiver. *)
Definition get_literal (V : Type) (o : Obj V) (k : jsstring) : holder V :=
  match JsObject.own o k with
  | Some v => HOwn v
  | None =>
      if named "__proto__" k then HObjectPrototype
      else match find_method k with
           | Some f => HMethod f
           | None => HUndefined
           end
  end.

(** [Get] on [%Object.prototype%] itself, whose prototype is [null]. *)
Definition get_object_prototype (k : jsstring) : Value :=
  if named "__proto__" k then VNull
  else match find_method k with
       | Some f => VBuiltin (intrinsic f)
       | None => VUndefined
       end.

(** [Get] on one of the functions above: its own ["length"] and ["name"]
    (and, for [Object], ["prototype"] and the static functions), then
    [%Function.prototype%], whose ["caller"] and ["arguments"] accessors
    are [%ThrowTypeError%], then [%Object.prototype%]. *)
Definition get_method (f : method) (k : jsstring) : Completion Value :=
  if named "length" k then Normal (VNumber (arity f))
  else if named "name" k then Normal (VString (JsString.lit (name f)))
  else if String.eqb (intrinsic f) "Object" && named "prototype" k
  then Normal VObjectPrototype
  else match (if String.eqb (intrinsic f) "Object"
              then find_name object_statics k else None) with
  | Some n => Normal (VBuiltin ("Object." ++ n))
  | None =>
      match find_name function_prototype_methods k with
      | Some n => Normal (VBuiltin ("Function.prototype." ++ n))
      | None =>
          if named "constructor" k then Normal (VBuiltin "Function")
          else if among ["caller"; "arguments"] k then Throw TypeError
          else if named "__proto__" k then Normal VFunctionPrototype
          else Normal (get_object_prototype k)
      end
  end.

End Proto.

(** [o?.[p]?.[m]] on a two-level object literal: the second read happens
    unless the first one is [undefined]. *)
Definition lookup (o : Obj (Obj LanguageModel)) (p m : jsstring)
  : Completion Value :=
  match Proto.get_literal o p with
  | Proto.HUndefined => Normal VUndefined
  | Proto.HOwn models =>
      match Proto.get_literal models m with
      | Proto.HOwn h => Normal (VModel h)
      | Proto.HUndefined => Normal VUndefined
      | Proto.HObjectPrototype => Normal VObjectPrototype
      | Proto.HMethod f => Normal (VBuiltin (Proto.intrinsic f))
      end
  | Proto.HObjectPrototype => Normal (Proto.get_object_prototype m)
  | Proto.HMethod f => Proto.get_method f m
  end.

(** The entry stored under [(p, m)], own properties only. *)
Definition entry (o : Obj (Obj LanguageModel)) (p m : jsstring)
  : option LanguageModel :=
  match JsObject.own o p with
  | Some models => JsObject.own models m
  | None => None
  end.

(** ** The module *)

Definition Registry : Type := Obj (Obj LanguageModel).

(** [process.env]: each variable is a string or [undefined]. *)
Record Env := {
  OPENAI_API_KEY : option jsstring;
  GOOGLE_GENERATIVE_AI_API_KEY : option jsstring;
  ANTHROPIC_API_KEY : option jsstring;
  XAI_API_KEY : option jsstring;
  OPENROUTER_API_KEY : option jsstring;
  OLLAMA_BASE_URL : option jsstring;
  E2E_DEFAULT_MODEL : option jsstring
}.

(** What [createOpenAICompatibleModels] hands back: the dynamic catalog and
    the set of its handles flagged as lacking tool calling, in the order the
    set iterates. *)
Record Dynamic := {
  providers : Registry;
  unsupportedModels : list LanguageModel
}.

(** [v || d] for a string-or-undefined [v]: the empty string is falsy. *)
Definition or_else (v : option jsstring) (d : jsstring) : jsstring :=
  match v with
  | Some (c :: s) => c :: s
  | _ => d
  end.

Definition has (v : option jsstring) : bool :=
  match v with
  | Some s => Nat.ltb 0 (List.length (JsString.trim s))
  | None => false
  end.

Definition HAS_OPENAI (env : Env) := has (OPENAI_API_KEY env).
Definition HAS_GOOGLE (env : Env) := has (GOOGLE_GENERATIVE_AI_API_KEY env).
Definition HAS_ANTHROPIC (env : Env) := has (ANTHROPIC_API_KEY env).
Definition HAS_XAI (env : Env) := has (XAI_API_KEY env).
Definition HAS_OPENROUTER (env : Env) := has (OPENROUTER_API_KEY env).
Definition HAS_OLLAMA (env : Env) := has (OLLAMA_BASE_URL env).

(** The provider constructors. *)
Definition openai (id : string) := FirstParty OpenAI (js id).
Definition google (id : string) := FirstParty Google (js id).
Definition anthropic (id : string) := FirstParty Anthropic (js id).
Definition xai (id : string) := FirstParty XAI (js id).
Definition openrouter (id : string) := FirstParty OpenRouter (js id).
Definition ollama (env : Env) (id : string) :=
  FirstParty (Ollama (or_else (OLLAMA_BASE_URL env) (js "http://localhost:11434/api")))
             (js id).

(** An object literal with the given properties. *)
Definition literal (V : Type) (props : list (string * V)) : Obj V :=
  List.map (fun kv => (js (fst kv), snd kv)) props.

Definition openai_models : Obj LanguageModel :=
  literal [ ("gpt-4.1", openai "gpt-4.1");
            ("gpt-4.1-mini", openai "gpt-4.1-mini");
            ("o4-mini", openai "o4-mini");
            ("o3", openai "o3");
            ("gpt-5", openai "gpt-5");
            ("gpt-5-mini", openai "gpt-5-mini");
            ("gpt-5-nano", openai "gpt-5-nano") ]%string.

Definition google_models : Obj LanguageModel :=
  literal [ ("gemini-2.5-flash-lite", google "gemini-2.5-flash-lite");
            ("gemini-2.5-flash", google "gemini-2.5-flash");
            ("gemini-2.5-pro", google "gemini-2.5-pro") ]%string.

Definition anthropic_models : Obj LanguageModel :=
  literal [ ("claude-4-sonnet", anthropic "claude-4-sonnet-20250514");
            ("claude-4-opus", anthropic "claude-4-opus-20250514");
            ("claude-3-7-sonnet", anthropic "claude-3-7-sonnet-20250219") ]%string.

Definition xai_models : Obj LanguageModel :=
  literal [ ("grok-4", xai "grok-4");
            ("grok-3", xai "grok-3");
            ("grok-3-mini", xai "grok-3-mini") ]%string.

Definition ollama_models (env : Env) : Obj LanguageModel :=
  literal [ ("gemma3:1b", ollama env "gemma3:1b");
            ("gemma3:4b", ollama env "gemma3:4b");
            ("gemma3:12b", ollama env "gemma3:12b") ]%string.

Definition openRouter_models : Obj LanguageModel :=
  literal [ ("gpt-oss-20b:free", openrouter "openai/gpt-oss-20b:free");
            ("qwen3-8b:free", openrouter "qwen/qwen3-8b:free");
            ("qwen3-14b:free", openrouter "qwen/qwen3-14b:free");
            ("qwen3-coder:free", openrouter "qwen/qwen3-coder:free");
            ("deepseek-r1:free", openrouter "deepseek/deepseek-r1-0528:free");
            ("deepseek-v3:free", openrouter "deepseek/deepseek-chat-v3-0324:free");
            ("gemini-2.0-flash-exp:free",
             openrouter "google/gemini-2.0-flash-exp:free") ]%string.

(** [if (flag) o.key = models;] *)
Definition assign_if (flag : bool) (key : string) (models : Obj LanguageModel)
                     (o : Registry) : Registry :=
  if flag then JsObject.set o (js key) models else o.

(** The static catalog, built from the empty object by the six guarded
    assignments, in source order. *)
Definition conditionalStaticModels (env : Env) : Registry :=
  assign_if (HAS_OPENROUTER env) "openRouter" openRouter_models
  (assign_if (HAS_OLLAMA env) "ollama" (ollama_models env)
  (assign_if (HAS_XAI env) "xai" xai_models
  (assign_if (HAS_ANTHROPIC env) "anthropic" anthropic_models
  (assign_if (HAS_GOOGLE env) "google" google_models
  (assign_if (HAS_OPENAI env) "openai" openai_models
  (JsObject.empty _)))))).

(** The (provider, model) pairs the source lists as lacking tool calling. *)
Definition knownUnsupported : list (string * string) :=
  [ ("openai", "o4-mini");
    ("ollama", "gemma3:1b");
    ("ollama", "gemma3:4b");
    ("ollama", "gemma3:12b");
    ("openRouter", "gpt-oss-20b:free");
    ("openRouter", "qwen3-8b:free");
    ("openRouter", "qwen3-14b:free");
    ("openRouter", "deepseek-r1:free");
    ("openRouter", "gemini-2.0-flash-exp:free") ]%string.

(** [...(cat.p?.[m] ? [cat.p[m]] : [])]: the element contributed by one
    pair.  With the keys of [knownUnsupported] the read is a handle or
    [undefined] ([known_reads_own] below). *)
Definition presentHandle (cat : Registry) (pm : string * string)
  : list LanguageModel :=
  match lookup cat (js (fst pm)) (js (snd pm)) with
  | Normal (VModel h) => [h]
  | _ => []
  end.

Definition LanguageModel_eqb (a b : LanguageModel) : bool :=
  match a, b with
  | Compatible r, Compatible r' => N.eqb r r'
  | FirstParty (Ollama u) i, FirstParty (Ollama u') i' =>
      JsString.eqb u u' && JsString.eqb i i'
  | FirstParty OpenAI i, FirstParty OpenAI i'
  | FirstParty Google i, FirstParty Google i'
  | FirstParty Anthropic i, FirstParty Anthropic i'
  | FirstParty XAI i, FirstParty XAI i'
  | FirstParty OpenRouter i, FirstParty OpenRouter i' => JsString.eqb i i'
  | _, _ => false
  end.

(** [Set]: the elements in insertion order, without repetition. *)
Module JsSet.

Definition t := list LanguageModel.

Definition has (s : t) (h : LanguageModel) : bool :=
  existsb (LanguageModel_eqb h) s.

Definition add (s : t) (h : LanguageModel) : t :=
  if has s h then s else s ++ [h].

(** [new Set(elements)] *)
Definition from (elements : list LanguageModel) : t :=
  fold_left add elements [].

End JsSet.

Definition staticUnsupportedModels (env : Env) : JsSet.t :=
  JsSet.from (flat_map (presentHandle (conditionalStaticModels env)) knownUnsupported).

(** [{ ...openaiCompatibleModels, ...conditionalStaticModels }] *)
Definition allModels (env : Env) (dyn : Dynamic) : Registry :=
  JsObject.spread (JsObject.spread (JsObject.empty _) (providers dyn))
                  (conditionalStaticModels env).

Definition allUnsupportedModels (env : Env) (dyn : Dynamic) : JsSet.t :=
  JsSet.from (unsupportedModels dyn ++ staticUnsupportedModels env).

Definition isToolCallUnsupportedModel (env : Env) (dyn : Dynamic)
                                      (model : LanguageModel) : bool :=
  JsSet.has (allUnsupportedModels env dyn) model.

(** *** The fallback model *)

(** [const [provider, model] = pieces]: a missing element is [undefined],
    which as a property key reads ["undefined"]. *)
Definition element (pieces : list jsstring) (i : nat) : jsstring :=
  nth i pieces (js "undefined").

(** [(process.env.E2E_DEFAULT_MODEL || "").trim()] *)
Definition configuredDefault (env : Env) : jsstring :=
  JsString.trim (or_else (E2E_DEFAULT_MODEL env) []).

(** The value of [found] in the first block of [resolveFallback];
    [undefined] when the block is not entered. *)
Definition configuredFound (env : Env) (dyn : Dynamic) : Completion Value :=
  if JsString.includes JsString.slash (configuredDefault env) then
    let pieces := JsString.split_limit JsString.slash 2 (configuredDefault env) in
    lookup (allModels env dyn) (element pieces 0) (element pieces 1)
  else Normal VUndefined.

(** The loop over [Object.keys(allModels)]: the first value of the first
    provider whose [Object.values] is not empty. *)
Fixpoint firstAvailable (reg : Registry) (providerKeys : list jsstring)
  : option LanguageModel :=
  match providerKeys with
  | [] => None
  | provider :: rest =>
      let entries :=
        JsObject.values (match JsObject.own reg provider with
                         | Some models => models
                         | None => JsObject.empty _
                         end) in
      match entries with
      | h :: _ => Some h
      | [] => firstAvailable reg rest
      end
  end.

(** [if (cat.ollama) { const values = Object.values(cat.ollama); ... }] *)
Definition lastResort (cat : Registry) : option LanguageModel :=
  match Proto.get_literal cat (js "ollama") with
  | Proto.HOwn models => hd_error (JsObject.values models)
  | _ => None
  end.

Definition noModels : Exception :=
  Error "No models are available. Please configure at least one provider in the environment.".

Definition resolveFallback (env : Env) (dyn : Dynamic) : Completion Value :=
  match configuredFound env dyn with
  | Throw e => Throw e
  | Normal found =>
      if truthy found then Normal found
      else
        match lookup (conditionalStaticModels env) (js "openai") (js "gpt-4.1") with
        | Throw e => Throw e
        | Normal preferred =>
            if truthy preferred then Normal preferred
            else
              match firstAvailable (allModels env dyn)
                                   (JsObject.keys (allModels env dyn)) with
              | Some h => Normal (VModel h)
              | None =>
                  match lastResort (conditionalStaticModels env) with
                  | Some h => Normal (VModel h)
                  | None => Throw noModels
                  end
              end
        end
  end.

(** [resolveFallback] with the block after the loop taken out. *)
Definition resolveFallback_without_lastResort (env : Env) (dyn : Dynamic)
  : Completion Value :=
  match configuredFound env dyn with
  | Throw e => Throw e
  | Normal found =>
      if truthy found then Normal found
      else
        match lookup (conditionalStaticModels env) (js "openai") (js "gpt-4.1") with
        | Throw e => Throw e
        | Normal preferred =>
            if truthy preferred then Normal preferred
            else
              match firstAvailable (allModels env dyn)
                                   (JsObject.keys (allModels env dyn)) with
              | Some h => Normal (VModel h)
              | None => Throw noModels
              end
        end
  end.

(** *** The facade *)

Record ChatModel := {
  provider : jsstring;
  model : jsstring
}.

(** The module once its top level has run. *)
Record Loaded := {
  registry : Registry;
  unsupported : JsSet.t;
  fallbackModel : Value
}.

(** Evaluation of the module: [resolveFallback()] runs at top level, so an
    exception there means there is no module and no facade. *)
Definition load (env : Env) (dyn : Dynamic) : Completion Loaded :=
  match resolveFallback env dyn with
  | Throw e => Throw e
  | Normal fallback =>
      Normal {| registry := allModels env dyn;
                unsupported := allUnsupportedModels env dyn;
                fallbackModel := fallback |}
  end.

(** [customModelProvider.getModel] *)
Definition getModel (m : Loaded) (ref : option ChatModel) : Completion Value :=
  match ref with
  | None => Normal (fallbackModel m)
  | Some r =>
      match lookup (registry m) (provider r) (model r) with
      | Throw e => Throw e
      | Normal v => Normal (if truthy v then v else fallbackModel m)
      end
  end.

(** ** The dynamic catalog builder *)

Module CompatibleCatalog.

(** Modelled from the spec: [openaiCompatibleModelsSafeParse] and
    [createOpenAICompatibleModels] come from [./create-openai-compatiable],
    which is not among the sources.  The spec gives the payload as a list of
    definitions [{ name, baseURL, apiKey?, models: [{ name, supportsTools? }] }];
    a payload that is unset or does not parse counts as the empty list; an
    entry with a required field missing, an empty model list or a provider
    name already taken is left out and the others are kept; the result is a
    catalog of the shape of the static one and the set of handles whose
    model definition is flagged as not supporting tools. *)
Record ModelDefinition := {
  modelName : jsstring;
  supportsTools : option bool
}.

Record ProviderDefinition := {
  name : option jsstring;
  baseURL : option jsstring;
  apiKey : option jsstring;
  models : option (list ModelDefinition)
}.

(** The value of [OPENAI_COMPATIBLE_DATA] as the parser sees it. *)
Inductive Payload :=
| Unset
| Unparsable
| Parsed (entries : list ProviderDefinition).

(** Modelled from the spec: the required fields of an entry, when they are
    all there and the model list is not empty. *)
Definition validate (e : ProviderDefinition)
  : option (jsstring * list ModelDefinition) :=
  match name e, baseURL e, models e with
  | Some n, Some _, Some (m :: ms) => Some (n, m :: ms)
  | _, _, _ => None
  end.

Definition wellFormed (e : ProviderDefinition) : bool :=
  match validate e with Some _ => true | None => false end.

(** Modelled from the spec: entries are taken in order; an entry that is not
    well formed, or whose name an earlier accepted entry has, is skipped. *)
Fixpoint accept (seen : list jsstring) (entries : list ProviderDefinition)
  : list (jsstring * list ModelDefinition) :=
  match entries with
  | [] => []
  | e :: rest =>
      match validate e with
      | Some (n, ms) =>
          if existsb (JsString.eqb n) seen then accept seen rest
          else (n, ms) :: accept (n :: seen) rest
      | None => accept seen rest
      end
  end.

(** Modelled from the spec: the permissive parse. *)
Definition openaiCompatibleModelsSafeParse (payload : Payload)
  : list (jsstring * list ModelDefinition) :=
  match payload with
  | Parsed entries => accept [] entries
  | Unset | Unparsable => []
  end.

Definition flaggedUnsupported (d : ModelDefinition) : bool :=
  match supportsTools d with
  | Some false => true
  | _ => false
  end.

(** Modelled from the spec: one fresh handle per model definition; [next]
    is the identity the next handle gets. *)
Definition addModel (st : Obj LanguageModel * list LanguageModel * N)
                    (d : ModelDefinition)
  : Obj LanguageModel * list LanguageModel * N :=
  let '(mapping, flagged, next) := st in
  (JsObject.set mapping (modelName d) (Compatible next),
   if flaggedUnsupported d then flagged ++ [Compatible next] else flagged,
   N.succ next).

Definition addProvider (st : Registry * list LanguageModel * N)
                       (e : jsstring * list ModelDefinition)
  : Registry * list LanguageModel * N :=
  let '(reg, flagged, next) := st in
  let '(mapping, flagged', next') :=
    fold_left addModel (snd e) (JsObject.empty _, flagged, next) in
  (JsObject.set reg (fst e) mapping, flagged', next').

(** Modelled from the spec: the catalog and the flagged set built from the
    accepted entries. *)
Definition createOpenAICompatibleModels
    (config : list (jsstring * list ModelDefinition)) : Dynamic :=
  let '(reg, flagged, _) :=
    fold_left addProvider config (JsObject.empty _, [], 0%N) in
  {| providers := reg; unsupportedModels := flagged |}.

Definition dynamicCatalog (payload : Payload) : Dynamic :=
  createOpenAICompatibleModels (openaiCompatibleModelsSafeParse payload).

Definition definition (n : string) (modelNames : list string) : ProviderDefinition :=
  {| name := Some (js n);
     baseURL := Some (js "https://example.test/v1");
     apiKey := None;
     models := Some (List.map (fun m => {| modelName := js m;
                                           supportsTools := None |}) modelNames) |}.

(** Three entries that are well formed and one without its model list. *)
Definition three_and_one : list ProviderDefinition :=
  [ definition "alpha" ["a1"; "a2"]%string;
    {| name := Some (js "broken"); baseURL := Some (js "https://example.test/v1");
       apiKey := None; models := None |};
    definition "beta" ["b1"]%string;
    definition "gamma" ["g1"]%string ].

(** The same with a second definition of ["beta"] at the end. *)
Definition three_one_and_duplicate : list ProviderDefinition :=
  three_and_one ++ [ definition "beta" ["other"]%string ].

End CompatibleCatalog.

(** ** Vocabulary of the statements *)

(** The six first-party providers, each with the key it is stored under, the
    environment variable that gates it and the mapping it is given. *)
Inductive FirstPartyProvider :=
| P_openai | P_google | P_anthropic | P_xai | P_ollama | P_openRouter.

Definition providerKey (pr : FirstPartyProvider) : string :=
  match pr with
  | P_openai => "openai"
  | P_google => "google"
  | P_anthropic => "anthropic"
  | P_xai => "xai"
  | P_ollama => "ollama"
  | P_openRouter => "openRouter"
  end.

Definition presenceSignal (pr : FirstPartyProvider) (env : Env) : option jsstring :=
  match pr with
  | P_openai => OPENAI_API_KEY env
  | P_google => GOOGLE_GENERATIVE_AI_API_KEY env
  | P_anthropic => ANTHROPIC_API_KEY env
  | P_xai => XAI_API_KEY env
  | P_ollama => OLLAMA_BASE_URL env
  | P_openRouter => OPENROUTER_API_KEY env
  end.

Definition staticModels (pr : FirstPartyProvider) (env : Env) : Obj LanguageModel :=
  match pr with
  | P_openai => openai_models
  | P_google => google_models
  | P_anthropic => anthropic_models
  | P_xai => xai_models
  | P_ollama => ollama_models env
  | P_openRouter => openRouter_models
  end.

(** A value is present when it is a string whose trimmed form holds a
    character that is not white space. *)
Definition nonBlank (v : option jsstring) : Prop :=
  exists s, v = Some s /\
  exists c, In c (JsString.trim s) /\ JsString.is_white_space c = false.

(** The first value of the first mapping that is not empty, read off the
    list of properties. *)
Fixpoint firstValue (reg : Registry) : option LanguageModel :=
  match reg with
  | [] => None
  | (_, models) :: rest =>
      match JsObject.values models with
      | h :: _ => Some h
      | [] => firstValue rest
      end
  end.

(** The keys [%Object.prototype%] answers to. *)
Definition inheritedKey (k : jsstring) : bool :=
  Proto.named "__proto__" k ||
  match Proto.find_method k with Some _ => true | None => false end.

(** A handle some (provider, model) pair of the registry stores. *)
Definition reachable (reg : Registry) (h : LanguageModel) : Prop :=
  exists p m, entry reg p m = Some h.

(** ** Sample configurations *)

Definition env_blank : Env :=
  {| OPENAI_API_KEY := None; GOOGLE_GENERATIVE_AI_API_KEY := None;
     ANTHROPIC_API_KEY := None; XAI_API_KEY := None;
     OPENROUTER_API_KEY := None; OLLAMA_BASE_URL := None;
     E2E_DEFAULT_MODEL := None |}.

Definition with_openai (key : string) (env : Env) : Env :=
  {| OPENAI_API_KEY := Some (js key);
     GOOGLE_GENERATIVE_AI_API_KEY := GOOGLE_GENERATIVE_AI_API_KEY env;
     ANTHROPIC_API_KEY := ANTHROPIC_API_KEY env; XAI_API_KEY := XAI_API_KEY env;
     OPENROUTER_API_KEY := OPENROUTER_API_KEY env;
     OLLAMA_BASE_URL := OLLAMA_BASE_URL env;
     E2E_DEFAULT_MODEL := E2E_DEFAULT_MODEL env |}.

Definition with_ollama (url : string) (env : Env) : Env :=
  {| OPENAI_API_KEY := OPENAI_API_KEY env;
     GOOGLE_GENERATIVE_AI_API_KEY := GOOGLE_GENERATIVE_AI_API_KEY env;
     ANTHROPIC_API_KEY := ANTHROPIC_API_KEY env; XAI_API_KEY := XAI_API_KEY env;
     OPENROUTER_API_KEY := OPENROUTER_API_KEY env;
     OLLAMA_BASE_URL := Some (js url);
     E2E_DEFAULT_MODEL := E2E_DEFAULT_MODEL env |}.

Definition with_default (token : string) (env : Env) : Env :=
  {| OPENAI_API_KEY := OPENAI_API_KEY env;
     GOOGLE_GENERATIVE_AI_API_KEY := GOOGLE_GENERATIVE_AI_API_KEY env;
     ANTHROPIC_API_KEY := ANTHROPIC_API_KEY env; XAI_API_KEY := XAI_API_KEY env;
     OPENROUTER_API_KEY := OPENROUTER_API_KEY env;
     OLLAMA_BASE_URL := OLLAMA_BASE_URL env;
     E2E_DEFAULT_MODEL := Some (js token) |}.

Definition no_dynamic : Dynamic := {| providers := []; unsupportedModels := [] |}.

(** A dynamic catalog that reuses the first-party name ["openai"] for a
    provider of its own, next to a provider ["acme"]; the model under
    ["openai"] is flagged as lacking tool calling. *)
Definition dyn_shadowing : Dynamic :=
  {| providers := [ (js "openai", [ (js "local-llm", Compatible 1) ]);
                    (js "acme", [ (js "acme-mini", Compatible 2) ]) ];
     unsupportedModels := [ Compatible 1 ] |}.

(** A dynamic catalog with a provider of its own named ["openai"] that
    offers a model named ["gpt-4.1"], listed after another provider. *)
Definition dyn_openai_lookalike : Dynamic :=
  {| providers := [ (js "acme", [ (js "acme-mini", Compatible 1) ]);
                    (js "openai", [ (js "gpt-4.1", Compatible 2) ]) ];
     unsupportedModels := [] |}.

(** A dynamic catalog in which a provider offers a model whose name holds
    a slash, as the identifiers of hosted open models often do. *)
Definition dyn_slash_name : Dynamic :=
  {| providers := [ (js "acme", [ (js "acme-mini", Compatible 1) ]);
                    (js "hub", [ (js "qwen/qwen3-8b", Compatible 2) ]) ];
     unsupportedModels := [] |}.

(** A dynamic catalog whose first provider has no model. *)
Definition dyn_first_empty : Dynamic :=
  {| providers := [ (js "idle", []);
                    (js "acme", [ (js "acme-mini", Compatible 1);
                                  (js "acme-large", Compatible 2) ]) ];
     unsupportedModels := [] |}.

(** ** The listing and the build configuration *)

(** [customModelProvider.modelsInfo]: for each entry of the merged registry,
    in order, the provider name and, for each entry of its mapping, in
    order, the model name and whether the handle is in the merged
    unsupported set. *)
Module Listing.

Record ModelInfo := {
  name : jsstring;
  isToolCallUnsupported : bool
}.

Record ProviderInfo := {
  provider : jsstring;
  models : list ModelInfo
}.

Definition modelsInfo (m : Loaded) : list ProviderInfo :=
  List.map (fun pm =>
              {| provider := fst pm;
                 models :=
                   List.map (fun nm =>
                               {| name := fst nm;
                                  isToolCallUnsupported :=
                                    JsSet.has (unsupported m) (snd nm) |})
                            (snd pm) |})
           (registry m).

End Listing.

(** The Next.js configuration file, which reads [process.env] on its own;
    [NEXT_STANDALONE_OUTPUT] and [NO_HTTPS] are not read by the registry and
    are passed here next to the environment of the registry. *)
Module NextConfig.

(** [!!v] and [v ? a : b] for a string-or-undefined [v]. *)
Definition defined (v : option jsstring) : bool :=
  match v with
  | Some (_ :: _) => true
  | _ => false
  end.

Definition BUILD_OUTPUT (NEXT_STANDALONE_OUTPUT : option jsstring)
  : option jsstring :=
  if defined NEXT_STANDALONE_OUTPUT then Some (js "standalone") else None.

Definition isOpenAIKeyPresent (env : Env) : bool :=
  defined (OPENAI_API_KEY env).

Record ConfigEnv := {
  NO_HTTPS : option jsstring;
  NEXT_PUBLIC_OPENAI_API_KEY_DEFINED : jsstring
}.

Record Config := {
  output : option jsstring;
  cleanDistDir : bool;
  devIndicators_position : jsstring;
  env : ConfigEnv;
  experimental_taint : bool
}.

(** The object handed to [withNextIntl]. *)
Definition nextConfig (e : Env) (NEXT_STANDALONE_OUTPUT no_https : option jsstring)
  : Config :=
  {| output := BUILD_OUTPUT NEXT_STANDALONE_OUTPUT;
     cleanDistDir := true;
     devIndicators_position := js "bottom-right";
     env := {| NO_HTTPS := no_https;
               NEXT_PUBLIC_OPENAI_API_KEY_DEFINED :=
                 if isOpenAIKeyPresent e then js "1" else js "0" |};
     experimental_taint := true |}.

End NextConfig.

(** ** Vocabulary of the further statements *)

(** The first-party providers in the order the source assigns them. *)
Definition sourceOrder : list FirstPartyProvider :=
  [ P_openai; P_google; P_anthropic; P_xai; P_ollama; P_openRouter ].

Definition keyIn (ks : list jsstring) (k : jsstring) : bool :=
  existsb (JsString.eqb k) ks.

(** [base] with each value replaced by the one [top] has under the same
    key, followed by the properties of [top] under keys [base] lacks. *)
Definition overlay (V : Type) (base top : Obj V) : Obj V :=
  List.map (fun kv => (fst kv, match JsObject.own top (fst kv) with
                               | Some v => v
                               | None => snd kv
                               end)) base
  ++ filter (fun kv => negb (keyIn (JsObject.keys base) (fst kv))) top.

(** An object has each key once; so has each mapping of a catalog. *)
Definition distinctKeys (reg : Registry) : Prop :=
  NoDup (JsObject.keys reg) /\
  Forall (fun pm => NoDup (JsObject.keys (snd pm))) reg.

(** The environment with [E2E_DEFAULT_MODEL] unset. *)
Definition without_default (env : Env) : Env :=
  {| OPENAI_API_KEY := OPENAI_API_KEY env;
     GOOGLE_GENERATIVE_AI_API_KEY := GOOGLE_GENERATIVE_AI_API_KEY env;
     ANTHROPIC_API_KEY := ANTHROPIC_API_KEY env; XAI_API_KEY := XAI_API_KEY env;
     OPENROUTER_API_KEY := OPENROUTER_API_KEY env;
     OLLAMA_BASE_URL := OLLAMA_BASE_URL env;
     E2E_DEFAULT_MODEL := None |}.

(** A dynamic catalog with a provider and a model both named after
    properties of [%Object.prototype%], and one provider without models. *)
Definition dyn_odd_names : Dynamic :=
  {| providers := [ (js "constructor", [ (js "name", Compatible 7);
                                         (js "toString", Compatible 8) ]);
                    (js "idle", []) ];
     unsupportedModels := [ Compatible 8 ] |}.

(** * Properties *)

(** ** Strings *)

Lemma JsString_eqb_eq (a b : jsstring) : JsString.eqb a b = true <-> a = b.
Proof.
  revert b; induction a as [|x a IH]; intros [|y b]; simpl;
    try (split; [discriminate | intros H; discriminate H]).
  - split; reflexivity.
  - rewrite andb_true_iff, N.eqb_eq, IH. split.
    + intros [-> ->]; reflexivity.
    + intros H; injection H; auto.
Qed.

Lemma JsString_eqb_refl (a : jsstring) : JsString.eqb a a = true.
Proof. apply JsString_eqb_eq; reflexivity. Qed.

Lemma JsString_eqb_neq (a b : jsstring) : JsString.eqb a b = false <-> a <> b.
Proof.
  rewrite <- JsString_eqb_eq. destruct (JsString.eqb a b); split; congruence.
Qed.

Lemma JsString_eqb_sym (a b : jsstring) : JsString.eqb a b = JsString.eqb b a.
Proof.
  destruct (JsString.eqb b a) eqn:E.
  - apply JsString_eqb_eq in E; subst; apply JsString_eqb_refl.
  - apply JsString_eqb_neq in E. apply JsString_eqb_neq; congruence.
Qed.

(** What is left of a string after [trim_start] starts with a character that
    is not white space. *)
Lemma trim_start_head (s : jsstring) c r :
  JsString.trim_start s = c :: r -> JsString.is_white_space c = false.
Proof.
  induction s as [|x s IH]; simpl; [discriminate|].
  destruct (JsString.is_white_space x) eqn:E; auto.
  intros H; injection H; intros; subst; assumption.
Qed.

Lemma trim_start_keeps (s : jsstring) c :
  In c s -> JsString.is_white_space c = false -> In c (JsString.trim_start s).
Proof.
  induction s as [|x s IH]; simpl; [tauto|].
  intros [->|Hin] Hc.
  - rewrite Hc; left; reflexivity.
  - destruct (JsString.is_white_space x); [auto | right; assumption].
Qed.

Lemma trim_start_incl (s : jsstring) c : In c (JsString.trim_start s) -> In c s.
Proof.
  induction s as [|x s IH]; simpl; [tauto|].
  destruct (JsString.is_white_space x); [right; auto | trivial].
Qed.

Lemma trim_keeps (s : jsstring) c :
  In c s -> JsString.is_white_space c = false -> In c (JsString.trim s).
Proof.
  intros Hin Hc. unfold JsString.trim, JsString.trim_end.
  apply in_rev. rewrite rev_involutive.
  apply trim_start_keeps; [|assumption].
  apply -> in_rev. apply trim_start_keeps; assumption.
Qed.

Lemma trim_incl (s : jsstring) c : In c (JsString.trim s) -> In c s.
Proof.
  unfold JsString.trim, JsString.trim_end. intros H.
  apply in_rev in H. apply trim_start_incl in H. apply in_rev in H.
  apply trim_start_incl in H. assumption.
Qed.

(** A trimmed string that is not empty holds a character that is not white
    space: its last one. *)
Lemma trim_nonempty_char (s : jsstring) :
  JsString.trim s <> [] ->
  exists c, In c (JsString.trim s) /\ JsString.is_white_space c = false.
Proof.
  unfold JsString.trim, JsString.trim_end. intros H.
  destruct (JsString.trim_start (rev (JsString.trim_start s))) as [|c r] eqn:E.
  - elim H; reflexivity.
  - exists c. split.
    + apply in_rev. rewrite rev_involutive. left; reflexivity.
    + eapply trim_start_head; eassumption.
Qed.

Lemma split_without (sep : N) (s : jsstring) :
  JsString.includes sep s = false -> JsString.split sep s = [s].
Proof.
  induction s as [|c s IH]; simpl; [reflexivity|].
  rewrite orb_false_iff. intros [Hc Hs].
  rewrite N.eqb_sym, Hc, (IH Hs). reflexivity.
Qed.

Lemma split_at_first (sep : N) (p m : jsstring) :
  JsString.includes sep p = false ->
  JsString.split sep (p ++ sep :: m) = p :: JsString.split sep m.
Proof.
  induction p as [|c p IH]; simpl.
  - rewrite N.eqb_refl. reflexivity.
  - rewrite orb_false_iff. intros [Hc Hp].
    rewrite N.eqb_sym, Hc, (IH Hp). reflexivity.
Qed.

Lemma includes_app (sep : N) (p m : jsstring) :
  JsString.includes sep (p ++ sep :: m) = true.
Proof.
  unfold JsString.includes. rewrite existsb_app. simpl.
  rewrite N.eqb_refl. apply orb_true_iff; right; reflexivity.
Qed.

(** ** Objects *)

Section ObjectFacts.
Variable V : Type.
Implicit Types (o : Obj V) (k : jsstring) (v : V).

Lemma own_set_same o k v : JsObject.own (JsObject.set o k v) k = Some v.
Proof.
  induction o as [|[k' v'] o IH]; simpl.
  - rewrite JsString_eqb_refl; reflexivity.
  - destruct (JsString.eqb k k') eqn:E; simpl; rewrite E; auto.
Qed.

Lemma own_set_other o k k' v :
  k <> k' -> JsObject.own (JsObject.set o k v) k' = JsObject.own o k'.
Proof.
  intros Hne. induction o as [|[k0 v0] o IH]; simpl.
  - apply not_eq_sym, JsString_eqb_neq in Hne. rewrite Hne; reflexivity.
  - destruct (JsString.eqb k k0) eqn:E; simpl.
    + apply JsString_eqb_eq in E; subst k0.
      apply not_eq_sym, JsString_eqb_neq in Hne. rewrite Hne; reflexivity.
    + rewrite IH; reflexivity.
Qed.

Lemma own_In_keys o k v : JsObject.own o k = Some v -> In k (JsObject.keys o).
Proof.
  induction o as [|[k' v'] o IH]; simpl; [discriminate|].
  destruct (JsString.eqb k k') eqn:E.
  - apply JsString_eqb_eq in E; auto.
  - auto.
Qed.

Lemma own_None_keys o k : JsObject.own o k = None <-> ~ In k (JsObject.keys o).
Proof.
  induction o as [|[k' v'] o IH]; simpl; [tauto|].
  destruct (JsString.eqb k k') eqn:E.
  - apply JsString_eqb_eq in E. split; [discriminate | intuition congruence].
  - apply JsString_eqb_neq in E. rewrite IH. intuition congruence.
Qed.

Lemma keys_set o k v :
  JsObject.keys (JsObject.set o k v) =
  match JsObject.own o k with
  | Some _ => JsObject.keys o
  | None => JsObject.keys o ++ [k]
  end.
Proof.
  induction o as [|[k' v'] o IH]; simpl; [reflexivity|].
  destruct (JsString.eqb k k') eqn:E; simpl; [reflexivity|].
  rewrite IH. destruct (JsObject.own o k); reflexivity.
Qed.

Lemma NoDup_keys_set o k v :
  NoDup (JsObject.keys o) -> NoDup (JsObject.keys (JsObject.set o k v)).
Proof.
  intros Hnd. rewrite keys_set. destruct (JsObject.own o k) eqn:E; [assumption|].
  apply own_None_keys in E.
  rewrite <- (rev_involutive (JsObject.keys o ++ [k])).
  apply NoDup_rev. rewrite rev_app_distr. simpl.
  constructor; [rewrite <- in_rev; assumption | apply NoDup_rev; assumption].
Qed.

Lemma NoDup_keys_spread src o :
  NoDup (JsObject.keys o) -> NoDup (JsObject.keys (JsObject.spread o src)).
Proof.
  unfold JsObject.spread. revert o.
  induction src as [|[k v] src IH]; simpl; intros o Hnd; [assumption|].
  apply IH, NoDup_keys_set, Hnd.
Qed.

(** A key the spread object does not have leaves the target's property. *)
Lemma own_spread_absent src o k :
  JsObject.own src k = None ->
  JsObject.own (JsObject.spread o src) k = JsObject.own o k.
Proof.
  unfold JsObject.spread. revert o.
  induction src as [|[k' v'] src IH]; simpl; intros o; [reflexivity|].
  destruct (JsString.eqb k k') eqn:E; [discriminate|].
  intros H. rewrite (IH _ H). apply own_set_other.
  apply JsString_eqb_neq in E; congruence.
Qed.

(** A key the spread object has takes the spread object's property. *)
Lemma own_spread_present src o k v :
  NoDup (JsObject.keys src) ->
  JsObject.own src k = Some v ->
  JsObject.own (JsObject.spread o src) k = Some v.
Proof.
  unfold JsObject.spread. revert o.
  induction src as [|[k' v'] src IH]; simpl; intros o Hnd; [discriminate|].
  inversion Hnd as [|? ? Hnotin Hnd']; subst.
  destruct (JsString.eqb k k') eqn:E.
  - apply JsString_eqb_eq in E; subst k'. intros H; injection H; intros; subst v'.
    apply own_None_keys in Hnotin.
    change (JsObject.own (JsObject.spread (JsObject.set o k v) src) k = Some v).
    rewrite own_spread_absent by assumption. apply own_set_same.
  - apply IH; assumption.
Qed.

End ObjectFacts.

(** ** The static catalog *)

Lemma has_true_iff (v : option jsstring) : has v = true <-> nonBlank v.
Proof.
  unfold has, nonBlank. destruct v as [s|].
  - rewrite Nat.ltb_lt. split.
    + intros Hlen. exists s. split; [reflexivity|].
      apply trim_nonempty_char. intros E. rewrite E in Hlen. simpl in Hlen. lia.
    + intros (s' & Hs & c & Hin & _). injection Hs; intros; subst s'.
      destruct (JsString.trim s); [destruct Hin | simpl; lia].
  - split; [discriminate | intros (s & Hs & _); discriminate].
Qed.

(** The same, read on the untrimmed string. *)
Lemma nonBlank_untrimmed (s : jsstring) :
  nonBlank (Some s) <->
  exists c, In c s /\ JsString.is_white_space c = false.
Proof.
  unfold nonBlank. split.
  - intros (s' & Hs & c & Hin & Hc). injection Hs; intros; subst s'.
    exists c. split; [apply trim_incl; assumption | assumption].
  - intros (c & Hin & Hc). exists s. split; [reflexivity|].
    exists c. split; [apply trim_keeps; assumption | assumption].
Qed.

Lemma own_assign_if flag key models (o : Registry) k :
  JsObject.own (assign_if flag key models o) k =
  if flag && JsString.eqb (js key) k then Some models else JsObject.own o k.
Proof.
  unfold assign_if. destruct flag; simpl; [|reflexivity].
  destruct (JsString.eqb (js key) k) eqn:E.
  - apply JsString_eqb_eq in E; subst k. apply own_set_same.
  - apply own_set_other. apply JsString_eqb_neq; assumption.
Qed.

Lemma NoDup_keys_assign_if flag key models (o : Registry) :
  NoDup (JsObject.keys o) -> NoDup (JsObject.keys (assign_if flag key models o)).
Proof.
  unfold assign_if. destruct flag; [apply NoDup_keys_set | trivial].
Qed.

Lemma static_keys_NoDup (env : Env) :
  NoDup (JsObject.keys (conditionalStaticModels env)).
Proof.
  unfold conditionalStaticModels.
  repeat apply NoDup_keys_assign_if. constructor.
Qed.

(** The own property of the static catalog under a first-party key. *)
Lemma static_own (env : Env) (pr : FirstPartyProvider) :
  JsObject.own (conditionalStaticModels env) (js (providerKey pr)) =
  if has (presenceSignal pr env) then Some (staticModels pr env) else None.
Proof.
  unfold conditionalStaticModels. rewrite !own_assign_if.
  unfold HAS_OPENAI, HAS_GOOGLE, HAS_ANTHROPIC, HAS_XAI, HAS_OPENROUTER, HAS_OLLAMA.
  destruct pr; simpl presenceSignal; simpl staticModels;
    repeat match goal with
           | |- context [JsString.eqb (js ?a) (js ?b)] =>
               let r := eval vm_compute in (JsString.eqb (js a) (js b)) in
               change (JsString.eqb (js a) (js b)) with r
           end;
    rewrite ?andb_false_r, ?andb_true_r;
    repeat match goal with
           | |- context [if has ?v then _ else _] => destruct (has v)
           end; reflexivity.
Qed.

(** A key that names no first-party provider is not in the static catalog. *)
Lemma static_own_foreign (env : Env) (k : jsstring) :
  (forall pr, k <> js (providerKey pr)) ->
  JsObject.own (conditionalStaticModels env) k = None.
Proof.
  intros Hk. unfold conditionalStaticModels. rewrite !own_assign_if.
  repeat match goal with
         | |- context [JsString.eqb (js ?a) k] =>
             let E := fresh "E" in
             destruct (JsString.eqb (js a) k) eqn:E;
             [apply JsString_eqb_eq in E; exfalso | rewrite ?andb_false_r]
         end;
    try reflexivity.
  all: first [ apply (Hk P_openRouter); symmetry; assumption
             | apply (Hk P_ollama); symmetry; assumption
             | apply (Hk P_xai); symmetry; assumption
             | apply (Hk P_anthropic); symmetry; assumption
             | apply (Hk P_google); symmetry; assumption
             | apply (Hk P_openai); symmetry; assumption ].
Qed.

(** ** The merged registry *)

Lemma allModels_keys_NoDup (env : Env) (dyn : Dynamic) :
  NoDup (JsObject.keys (allModels env dyn)).
Proof.
  unfold allModels. do 2 apply NoDup_keys_spread. constructor.
Qed.

(** The static catalog is spread last: its providers replace whatever the
    dynamic catalog had under the same key. *)
Lemma allModels_own_static (env : Env) (dyn : Dynamic) p models :
  JsObject.own (conditionalStaticModels env) p = Some models ->
  JsObject.own (allModels env dyn) p = Some models.
Proof.
  intros H. unfold allModels.
  apply own_spread_present; [apply static_keys_NoDup | assumption].
Qed.

Lemma allModels_own_dynamic (env : Env) (dyn : Dynamic) p :
  JsObject.own (conditionalStaticModels env) p = None ->
  NoDup (JsObject.keys (providers dyn)) ->
  JsObject.own (allModels env dyn) p = JsObject.own (providers dyn) p.
Proof.
  intros Hs Hnd. unfold allModels. rewrite own_spread_absent by assumption.
  destruct (JsObject.own (providers dyn) p) as [models|] eqn:E.
  - apply own_spread_present; assumption.
  - rewrite own_spread_absent by assumption. reflexivity.
Qed.

Section OwnIn.
Variable V : Type.

Lemma own_In (o : Obj V) k v : JsObject.own o k = Some v -> In (k, v) o.
Proof.
  induction o as [|[k' v'] o IH]; simpl; [discriminate|].
  destruct (JsString.eqb k k') eqn:E.
  - apply JsString_eqb_eq in E; subst. intros H; injection H; intros; subst.
    left; reflexivity.
  - intros H; right; auto.
Qed.

Lemma In_own (o : Obj V) k v :
  NoDup (JsObject.keys o) -> In (k, v) o -> JsObject.own o k = Some v.
Proof.
  induction o as [|[k' v'] o IH]; simpl; [tauto|].
  intros Hnd [Heq|Hin].
  - injection Heq; intros; subst. rewrite JsString_eqb_refl; reflexivity.
  - inversion Hnd as [|? ? Hnotin Hnd']; subst.
    destruct (JsString.eqb k k') eqn:E.
    + apply JsString_eqb_eq in E; subst k'.
      elim Hnotin. apply (in_map fst) in Hin. exact Hin.
    + auto.
Qed.
End OwnIn.

Lemma firstAvailable_sub (reg part : Registry) :
  (forall k v, In (k, v) part -> JsObject.own reg k = Some v) ->
  firstAvailable reg (JsObject.keys part) = firstValue part.
Proof.
  induction part as [|[k models] part IH]; simpl; intros H; [reflexivity|].
  rewrite (H k models) by (left; reflexivity).
  destruct (JsObject.values models); [|reflexivity].
  apply IH. intros k' v' Hin. apply H. right; assumption.
Qed.

(** On an object, the loop of [resolveFallback] computes [firstValue]. *)
Lemma firstAvailable_firstValue (reg : Registry) :
  NoDup (JsObject.keys reg) ->
  firstAvailable reg (JsObject.keys reg) = firstValue reg.
Proof.
  intros Hnd. apply firstAvailable_sub. intros k v. apply In_own; assumption.
Qed.

Lemma firstValue_at (pre post : Registry) p m h rest :
  Forall (fun kv => snd kv = []) pre ->
  firstValue (pre ++ (p, (m, h) :: rest) :: post) = Some h.
Proof.
  induction 1 as [|[k models] pre Hk _ IH]; simpl; [reflexivity|].
  simpl in Hk; subst models. exact IH.
Qed.

Lemma firstValue_some (reg : Registry) k models :
  In (k, models) reg -> models <> [] -> exists h, firstValue reg = Some h.
Proof.
  induction reg as [|[k' models'] reg IH]; simpl; [tauto|].
  intros [Heq|Hin] Hne.
  - injection Heq; intros; subst. destruct models as [|[m h] rest]; [congruence|].
    exists h; reflexivity.
  - destruct (JsObject.values models') as [|h ?]; [auto | exists h; reflexivity].
Qed.

Lemma firstValue_none (reg : Registry) :
  Forall (fun kv => snd kv = []) reg -> firstValue reg = None.
Proof.
  induction 1 as [|[k models] reg Hk _ IH]; simpl; [reflexivity|].
  simpl in Hk; subst models. exact IH.
Qed.

Lemma firstValue_reachable (reg : Registry) h :
  firstValue reg = Some h ->
  exists p models m, In (p, models) reg /\ In (m, h) models.
Proof.
  induction reg as [|[k models] reg IH]; simpl; [discriminate|].
  destruct models as [|[m h'] rest]; simpl.
  - intros H. destruct (IH H) as (p & ms & m & Hin & Hm).
    exists p, ms, m. auto.
  - intros H; injection H; intros; subst h'.
    exists k, ((m, h) :: rest), m. split; left; reflexivity.
Qed.

(** ** Property reads *)

Lemma get_literal_own (V : Type) (o : Obj V) k v :
  JsObject.own o k = Some v -> Proto.get_literal o k = Proto.HOwn v.
Proof. unfold Proto.get_literal. intros ->. reflexivity. Qed.

Lemma get_literal_plain (V : Type) (o : Obj V) k :
  JsObject.own o k = None -> inheritedKey k = false ->
  Proto.get_literal o k = Proto.HUndefined.
Proof.
  unfold Proto.get_literal, inheritedKey. intros -> H.
  apply orb_false_iff in H. destruct H as [-> H].
  destruct (Proto.find_method k); [discriminate | reflexivity].
Qed.

(** A read that stays within the own properties yields the stored handle. *)
Lemma lookup_entry (o : Registry) p m h :
  entry o p m = Some h -> lookup o p m = Normal (VModel h).
Proof.
  unfold entry, lookup. destruct (JsObject.own o p) as [models|] eqn:E; [|discriminate].
  intros H. rewrite (get_literal_own _ _ E), (get_literal_own _ _ H). reflexivity.
Qed.

(** With keys [%Object.prototype%] does not answer to, a read is the stored
    handle or [undefined]. *)
Lemma lookup_plain (o : Registry) p m :
  inheritedKey p = false -> inheritedKey m = false ->
  lookup o p m = Normal (match entry o p m with
                         | Some h => VModel h
                         | None => VUndefined
                         end).
Proof.
  intros Hp Hm. unfold lookup, entry.
  destruct (JsObject.own o p) as [models|] eqn:E.
  - rewrite (get_literal_own _ _ E).
    destruct (JsObject.own models m) as [h|] eqn:E'.
    + rewrite (get_literal_own _ _ E'). reflexivity.
    + rewrite (get_literal_plain _ _ E' Hm). reflexivity.
  - rewrite (get_literal_plain _ _ E Hp). reflexivity.
Qed.

Lemma lookup_unknown_provider (o : Registry) p m :
  JsObject.own o p = None -> inheritedKey p = false ->
  lookup o p m = Normal VUndefined.
Proof.
  intros E Hp. unfold lookup. rewrite (get_literal_plain _ _ E Hp). reflexivity.
Qed.

Lemma lookup_unknown_model (o : Registry) p m models :
  JsObject.own o p = Some models ->
  JsObject.own models m = None -> inheritedKey m = false ->
  lookup o p m = Normal VUndefined.
Proof.
  intros E E' Hm. unfold lookup.
  rewrite (get_literal_own _ _ E), (get_literal_plain _ _ E' Hm). reflexivity.
Qed.

(** None of the keys the module itself reads with is answered by
    [%Object.prototype%]. *)
Lemma known_keys_plain :
  Forall (fun pm => inheritedKey (js (fst pm)) = false /\
                    inheritedKey (js (snd pm)) = false)
         (("openai", "gpt-4.1")%string :: knownUnsupported).
Proof. repeat constructor. Qed.

Lemma known_reads_own (cat : Registry) pm :
  In pm knownUnsupported ->
  presentHandle cat pm =
  match entry cat (js (fst pm)) (js (snd pm)) with
  | Some h => [h]
  | None => []
  end.
Proof.
  intros Hin. unfold presentHandle.
  pose proof known_keys_plain as HF. rewrite Forall_forall in HF.
  destruct (HF pm (or_intror Hin)) as [Hp Hm].
  rewrite (lookup_plain cat _ _ Hp Hm).
  destruct (entry cat (js (fst pm)) (js (snd pm))); reflexivity.
Qed.

(** The preferred model is read from the static catalog: it is there exactly
    when [OPENAI_API_KEY] is present. *)
Lemma preferred_read (env : Env) :
  lookup (conditionalStaticModels env) (js "openai") (js "gpt-4.1") =
  Normal (if HAS_OPENAI env then VModel (openai "gpt-4.1") else VUndefined).
Proof.
  rewrite lookup_plain by reflexivity. unfold entry.
  change (js "openai") with (js (providerKey P_openai)).
  rewrite static_own. simpl presenceSignal. unfold HAS_OPENAI.
  destruct (has (OPENAI_API_KEY env)); reflexivity.
Qed.

Lemma lastResort_read (env : Env) :
  lastResort (conditionalStaticModels env) =
  if HAS_OLLAMA env then Some (ollama env "gemma3:1b") else None.
Proof.
  unfold lastResort.
  pose proof (static_own env P_ollama) as H. simpl in H. unfold HAS_OLLAMA.
  destruct (has (OLLAMA_BASE_URL env)).
  - rewrite (get_literal_own _ _ H). reflexivity.
  - rewrite (get_literal_plain _ _ H) by reflexivity. reflexivity.
Qed.

(** ** Sets of handles *)

Lemma LanguageModel_eqb_eq (a b : LanguageModel) :
  LanguageModel_eqb a b = true <-> a = b.
Proof.
  destruct a as [[| | | | |u] i|r], b as [[| | | | |u'] i'|r']; simpl;
    try (split; [discriminate | intros H; discriminate H]);
    rewrite ?andb_true_iff, ?JsString_eqb_eq, ?N.eqb_eq;
    split; try (intros [-> ->]; reflexivity);
    try (intros ->; reflexivity); intros H; injection H; auto.
Qed.

Lemma JsSet_has_In (s : JsSet.t) h : JsSet.has s h = true <-> In h s.
Proof.
  unfold JsSet.has. rewrite existsb_exists. split.
  - intros (x & Hin & Heq). apply LanguageModel_eqb_eq in Heq; subst; assumption.
  - intros Hin. exists h. split; [assumption | apply LanguageModel_eqb_eq; reflexivity].
Qed.

Lemma JsSet_from_In (elements : list LanguageModel) h :
  In h (JsSet.from elements) <-> In h elements.
Proof.
  unfold JsSet.from.
  assert (G : forall acc, In h (fold_left JsSet.add elements acc) <->
                          In h acc \/ In h elements).
  { induction elements as [|x xs IH]; intros acc; simpl; [tauto|].
    rewrite IH. unfold JsSet.add.
    destruct (JsSet.has acc x) eqn:E.
    - apply JsSet_has_In in E. intuition (subst; auto).
    - rewrite in_app_iff. simpl. tauto. }
  rewrite G. simpl. tauto.
Qed.

(** ** The registry and its facade *)

(** C2.  Precedence of the merge: when the static catalog and the dynamic
    catalog both define a provider name, the merged registry holds the static
    catalog's mapping under that name, whole: every model name under that
    provider reads exactly as it does in the static mapping, so nothing of
    the dynamic provider's mapping survives and nothing is mixed in. *)
Theorem static_mapping_wins_whole (env : Env) (dyn : Dynamic) (p : jsstring)
    (staticMapping dynamicMapping : Obj LanguageModel) :
  JsObject.own (conditionalStaticModels env) p = Some staticMapping ->
  JsObject.own (providers dyn) p = Some dynamicMapping ->
  JsObject.own (allModels env dyn) p = Some staticMapping /\
  forall m, entry (allModels env dyn) p m = JsObject.own staticMapping m.
Proof.
  intros Hs _. pose proof (@allModels_own_static env dyn _ _ Hs) as H.
  split; [exact H|]. intros m. unfold entry. rewrite H. reflexivity.
Qed.

Lemma static_mapping_wins_whole_witness :
  JsObject.own (allModels (with_openai "sk-test" env_blank) dyn_shadowing)
               (js "openai") = Some openai_models /\
  forall m, entry (allModels (with_openai "sk-test" env_blank) dyn_shadowing)
                  (js "openai") m = JsObject.own openai_models m.
Proof.
  apply (@static_mapping_wins_whole (with_openai "sk-test" env_blank) dyn_shadowing
           (js "openai") openai_models [ (js "local-llm", Compatible 1) ]);
    reflexivity.
Defined.

(** C6.  Presence gating: for each first-party provider, the static catalog
    has the provider's key exactly when the provider's environment value is
    a string that still holds a character that is not white space once
    trimmed; the key then carries the provider's fixed mapping, and when the
    value is blank or unset the key is not there at all. *)
Theorem presence_gating (env : Env) (pr : FirstPartyProvider) :
  ((exists models,
       JsObject.own (conditionalStaticModels env) (js (providerKey pr)) = Some models)
    <-> nonBlank (presenceSignal pr env)) /\
  (nonBlank (presenceSignal pr env) ->
     JsObject.own (conditionalStaticModels env) (js (providerKey pr))
     = Some (staticModels pr env)) /\
  (~ nonBlank (presenceSignal pr env) ->
     JsObject.own (conditionalStaticModels env) (js (providerKey pr)) = None /\
     ~ In (js (providerKey pr)) (JsObject.keys (conditionalStaticModels env))).
Proof.
  rewrite static_own. pose proof (has_true_iff (presenceSignal pr env)) as Hh.
  destruct (has (presenceSignal pr env)) eqn:E.
  - assert (Hnb : nonBlank (presenceSignal pr env)) by (apply Hh; reflexivity).
    split; [|split].
    + split; [intros _; exact Hnb | intros _; eexists; reflexivity].
    + intros _; reflexivity.
    + intros H; contradiction.
  - assert (Hnb : ~ nonBlank (presenceSignal pr env)).
    { intros H; apply Hh in H; discriminate. }
    split; [|split].
    + split; [intros [models H]; discriminate | intros H; contradiction].
    + intros H; contradiction.
    + intros _. split; [reflexivity|].
      apply own_None_keys. rewrite static_own, E. reflexivity.
Qed.

Lemma presence_gating_witness :
  JsObject.own (conditionalStaticModels (with_ollama "  http://box:11434/api " env_blank))
               (js "ollama")
  = Some (ollama_models (with_ollama "  http://box:11434/api " env_blank)) /\
  JsObject.own (conditionalStaticModels (with_openai "   " env_blank)) (js "openai")
  = None.
Proof.
  split.
  - apply (presence_gating (with_ollama "  http://box:11434/api " env_blank) P_ollama).
    apply has_true_iff. reflexivity.
  - apply (presence_gating (with_openai "   " env_blank) P_openai).
    intros H. apply has_true_iff in H. discriminate H.
Defined.

(** C7.  [isToolCallUnsupportedModel h] holds exactly when [h] is the handle
    the static catalog stores under one of the listed (provider, model)
    pairs, or [h] is in the set the dynamic catalog builder flagged; a listed
    pair whose provider is not in the static catalog contributes nothing. *)
Theorem isToolCallUnsupportedModel_iff (env : Env) (dyn : Dynamic) (h : LanguageModel) :
  (isToolCallUnsupportedModel env dyn h = true <->
     (exists pm, In pm knownUnsupported /\
                 entry (conditionalStaticModels env) (js (fst pm)) (js (snd pm)) = Some h)
     \/ In h (unsupportedModels dyn)) /\
  (forall pm, In pm knownUnsupported ->
     JsObject.own (conditionalStaticModels env) (js (fst pm)) = None ->
     presentHandle (conditionalStaticModels env) pm = []).
Proof.
  split.
  - unfold isToolCallUnsupportedModel, allUnsupportedModels, staticUnsupportedModels.
    rewrite JsSet_has_In, JsSet_from_In, in_app_iff, JsSet_from_In, in_flat_map.
    split.
    + intros [Hd | (pm & Hin & Hh)]; [right; assumption | left].
      exists pm. split; [assumption|].
      rewrite (@known_reads_own _ _ Hin) in Hh.
      destruct (entry (conditionalStaticModels env) (js (fst pm)) (js (snd pm)));
        simpl in Hh; [destruct Hh as [->|[]]; reflexivity | destruct Hh].
    + intros [(pm & Hin & He) | Hd]; [right | left; assumption].
      exists pm. split; [assumption|].
      rewrite (@known_reads_own _ _ Hin), He. left; reflexivity.
  - intros pm Hin Hnone. rewrite (@known_reads_own _ _ Hin).
    unfold entry. rewrite Hnone. reflexivity.
Qed.

Lemma isToolCallUnsupportedModel_iff_witness :
  isToolCallUnsupportedModel (with_openai "sk-test" env_blank) dyn_shadowing
                             (openai "o4-mini") = true /\
  isToolCallUnsupportedModel (with_openai "sk-test" env_blank) dyn_shadowing
                             (Compatible 1) = true /\
  presentHandle (conditionalStaticModels (with_openai "sk-test" env_blank))
                ("ollama", "gemma3:1b")%string = [].
Proof.
  pose proof (isToolCallUnsupportedModel_iff (with_openai "sk-test" env_blank)
                dyn_shadowing) as H.
  split; [|split].
  - apply (H (openai "o4-mini")). left.
    exists ("openai", "o4-mini")%string. split; [left; reflexivity | reflexivity].
  - apply (H (Compatible 1)). right. left; reflexivity.
  - apply (H (Compatible 1)); [right; left; reflexivity | reflexivity].
Defined.

(** When the static catalog has ["ollama"], the merged registry has it with
    the same three models, and the loop over the merged registry succeeds. *)
Lemma ollama_covered_by_loop (env : Env) (dyn : Dynamic) :
  JsObject.own (conditionalStaticModels env) (js "ollama") = None \/
  (JsObject.own (conditionalStaticModels env) (js "ollama") = Some (ollama_models env) /\
   JsObject.values (ollama_models env) <> [] /\
   JsObject.own (allModels env dyn) (js "ollama") = Some (ollama_models env) /\
   exists h, firstAvailable (allModels env dyn) (JsObject.keys (allModels env dyn))
             = Some h).
Proof.
  pose proof (static_own env P_ollama) as Ho. simpl in Ho.
  destruct (has (OLLAMA_BASE_URL env)); [right | left; assumption].
  pose proof (@allModels_own_static env dyn _ _ Ho) as Ha.
  repeat split; try assumption; [discriminate|].
  rewrite firstAvailable_firstValue by apply allModels_keys_NoDup.
  apply (@firstValue_some _ (js "ollama") (ollama_models env)).
  - apply own_In; assumption.
  - discriminate.
Qed.

(** C9.  The block of [resolveFallback] after the loop never decides the
    result.  Either the static catalog has no ["ollama"] key, or it has it
    with its three models, the merged registry has the same mapping under
    the same key, and the loop over the merged registry finds a model; so
    [resolveFallback] equals, on every environment and dynamic catalog, the
    function without that block. *)
Theorem lastResort_unreachable (env : Env) (dyn : Dynamic) :
  (JsObject.own (conditionalStaticModels env) (js "ollama") = None \/
   (JsObject.own (conditionalStaticModels env) (js "ollama") = Some (ollama_models env) /\
    JsObject.values (ollama_models env) <> [] /\
    JsObject.own (allModels env dyn) (js "ollama") = Some (ollama_models env) /\
    exists h, firstAvailable (allModels env dyn) (JsObject.keys (allModels env dyn))
              = Some h)) /\
  resolveFallback env dyn = resolveFallback_without_lastResort env dyn.
Proof.
  pose proof (ollama_covered_by_loop env dyn) as D.
  split; [exact D|].
  unfold resolveFallback, resolveFallback_without_lastResort.
  destruct (configuredFound env dyn) as [found|e]; [|reflexivity].
  destruct (truthy found); [reflexivity|].
  destruct (lookup (conditionalStaticModels env) (js "openai") (js "gpt-4.1"))
    as [preferred|e]; [|reflexivity].
  destruct (truthy preferred); [reflexivity|].
  destruct D as [Hnone | (_ & _ & _ & h & Hh)].
  - destruct (firstAvailable _ _); [reflexivity|].
    unfold lastResort. rewrite (get_literal_plain _ _ Hnone) by reflexivity.
    reflexivity.
  - rewrite Hh. reflexivity.
Qed.

(** The configured default [p/m], with no other slash, is looked up as
    provider [p] and model [m]. *)
Lemma configuredFound_token (env : Env) (dyn : Dynamic) (p m : jsstring) :
  JsString.includes JsString.slash p = false ->
  JsString.includes JsString.slash m = false ->
  configuredDefault env = p ++ JsString.slash :: m ->
  configuredFound env dyn = lookup (allModels env dyn) p m.
Proof.
  intros Hp Hm Hc. unfold configuredFound. rewrite Hc, includes_app.
  unfold JsString.split_limit.
  rewrite (@split_at_first _ _ m Hp), (@split_without _ _ Hm). reflexivity.
Qed.

Lemma configuredFound_unset (env : Env) (dyn : Dynamic) :
  JsString.includes JsString.slash (configuredDefault env) = false ->
  configuredFound env dyn = Normal VUndefined.
Proof. unfold configuredFound. intros ->. reflexivity. Qed.

(** C4, as stated, fails: the default ["hub/qwen/qwen3-8b"] is the provider
    ["hub"] followed by the model ["qwen/qwen3-8b"], an entry of the merged
    registry, yet [split("/", 2)] hands back ["hub"] and ["qwen"], the read
    finds nothing and the resolver returns the first model of the first
    provider instead. *)
Lemma default_with_slash_in_model_not_selected :
  configuredDefault (with_default "hub/qwen/qwen3-8b" env_blank)
  = js "hub" ++ JsString.slash :: js "qwen/qwen3-8b" /\
  entry (allModels (with_default "hub/qwen/qwen3-8b" env_blank) dyn_slash_name)
        (js "hub") (js "qwen/qwen3-8b") = Some (Compatible 2) /\
  resolveFallback (with_default "hub/qwen/qwen3-8b" env_blank) dyn_slash_name
  = Normal (VModel (Compatible 1)) /\
  resolveFallback (with_default "hub/qwen/qwen3-8b" env_blank) dyn_slash_name
  <> Normal (VModel (Compatible 2)).
Proof.
  repeat split. vm_compute. discriminate.
Qed.

(** C4, amended.  When [E2E_DEFAULT_MODEL], trimmed, is a token [p/m] in
    which neither [p] nor [m] holds a slash, and the merged registry stores a
    handle under provider [p] and model [m], the fallback resolver returns
    that handle, the module loads, and [getModel] without a reference
    returns that handle, whatever else the registry holds and in whatever
    order. *)
Theorem explicit_default_selected (env : Env) (dyn : Dynamic)
    (p m : jsstring) (h : LanguageModel) :
  JsString.includes JsString.slash p = false ->
  JsString.includes JsString.slash m = false ->
  configuredDefault env = p ++ JsString.slash :: m ->
  entry (allModels env dyn) p m = Some h ->
  resolveFallback env dyn = Normal (VModel h) /\
  exists L, load env dyn = Normal L /\ getModel L None = Normal (VModel h).
Proof.
  intros Hp Hm Hc He.
  assert (R : resolveFallback env dyn = Normal (VModel h)).
  { unfold resolveFallback.
    rewrite (@configuredFound_token _ dyn _ _ Hp Hm Hc), (@lookup_entry _ _ _ _ He).
    reflexivity. }
  split; [exact R|].
  unfold load. rewrite R. eexists. split; reflexivity.
Qed.

Lemma explicit_default_selected_witness :
  resolveFallback (with_default "  acme/acme-mini " (with_openai "sk-test" env_blank))
                  dyn_shadowing
  = Normal (VModel (Compatible 2)) /\
  exists L, load (with_default "  acme/acme-mini " (with_openai "sk-test" env_blank))
                 dyn_shadowing = Normal L /\
            getModel L None = Normal (VModel (Compatible 2)).
Proof.
  apply (@explicit_default_selected
           (with_default "  acme/acme-mini " (with_openai "sk-test" env_blank))
           dyn_shadowing (js "acme") (js "acme-mini") (Compatible 2));
    reflexivity.
Defined.

(** C5, as stated, fails: with no default configured and no first-party
    provider present, the registry does hold a model ["gpt-4.1"] under
    ["openai"] (from the dynamic catalog), yet the resolver returns the first
    model of the first provider, not that one.  The preference is tested on
    the static catalog. *)
Lemma preferred_model_is_static_only :
  E2E_DEFAULT_MODEL env_blank = None /\
  entry (allModels env_blank dyn_openai_lookalike) (js "openai") (js "gpt-4.1")
  = Some (Compatible 2) /\
  resolveFallback env_blank dyn_openai_lookalike = Normal (VModel (Compatible 1)) /\
  resolveFallback env_blank dyn_openai_lookalike <> Normal (VModel (Compatible 2)).
Proof.
  repeat split. vm_compute. discriminate.
Qed.

Lemma static_preferred_entry (env : Env) :
  entry (conditionalStaticModels env) (js "openai") (js "gpt-4.1") =
  if HAS_OPENAI env then Some (openai "gpt-4.1") else None.
Proof.
  unfold entry. change (js "openai") with (js (providerKey P_openai)).
  rewrite static_own. simpl presenceSignal. unfold HAS_OPENAI.
  destruct (has (OPENAI_API_KEY env)); reflexivity.
Qed.

(** What [resolveFallback] does once the configured default has found
    nothing. *)
Lemma resolveFallback_after_default (env : Env) (dyn : Dynamic) (found : Value) :
  configuredFound env dyn = Normal found -> truthy found = false ->
  resolveFallback env dyn =
  if HAS_OPENAI env then Normal (VModel (openai "gpt-4.1"))
  else match firstValue (allModels env dyn) with
       | Some h => Normal (VModel h)
       | None => Throw noModels
       end.
Proof.
  intros Hf Ht. unfold resolveFallback. rewrite Hf, Ht, preferred_read.
  destruct (HAS_OPENAI env) eqn:E; [reflexivity|]. simpl.
  rewrite firstAvailable_firstValue by apply allModels_keys_NoDup.
  destruct (firstValue (allModels env dyn)) as [h|] eqn:Ev; [reflexivity|].
  destruct (ollama_covered_by_loop env dyn) as [Hnone | (_ & _ & _ & h & Hh)].
  - unfold lastResort. rewrite (get_literal_plain _ _ Hnone) by reflexivity.
    reflexivity.
  - rewrite firstAvailable_firstValue in Hh by apply allModels_keys_NoDup.
    congruence.
Qed.

(** C5, amended.  Once the configured default has found nothing: if the
    static catalog stores a handle under ["openai"], ["gpt-4.1"] (that is, if
    [OPENAI_API_KEY] is present) the resolver returns that handle, which is
    also what the merged registry stores there; otherwise it returns the
    first model of the first provider, in the key order of the merged
    registry, whose mapping is not empty. *)
Theorem fallback_order (env : Env) (dyn : Dynamic) (found : Value) :
  configuredFound env dyn = Normal found -> truthy found = false ->
  (forall h,
     entry (conditionalStaticModels env) (js "openai") (js "gpt-4.1") = Some h ->
     resolveFallback env dyn = Normal (VModel h) /\
     entry (allModels env dyn) (js "openai") (js "gpt-4.1") = Some h) /\
  (entry (conditionalStaticModels env) (js "openai") (js "gpt-4.1") = None ->
   forall pre p m h rest post,
     allModels env dyn = pre ++ (p, (m, h) :: rest) :: post ->
     Forall (fun kv => snd kv = []) pre ->
     resolveFallback env dyn = Normal (VModel h)).
Proof.
  intros Hf Ht. rewrite (resolveFallback_after_default _ _ Hf Ht).
  rewrite static_preferred_entry. split.
  - intros h Hh. destruct (HAS_OPENAI env) eqn:E; [|discriminate].
    injection Hh; intros; subst h. split; [reflexivity|].
    unfold entry.
    rewrite (@allModels_own_static env dyn (js "openai") openai_models); [reflexivity|].
    pose proof (static_own env P_openai) as Ho. simpl in Ho.
    unfold HAS_OPENAI in E. rewrite E in Ho. exact Ho.
  - intros Hn pre p m h rest post Hreg Hpre.
    destruct (HAS_OPENAI env); [discriminate|].
    rewrite Hreg, (firstValue_at _ _ _ _ _ Hpre). reflexivity.
Qed.

Lemma fallback_order_witness :
  resolveFallback (with_openai "sk-test" env_blank) dyn_first_empty
  = Normal (VModel (openai "gpt-4.1")) /\
  resolveFallback (with_default "acme/unknown" env_blank) dyn_first_empty
  = Normal (VModel (Compatible 1)).
Proof.
  split.
  - apply (proj1 (@fallback_order (with_openai "sk-test" env_blank) dyn_first_empty
                    VUndefined eq_refl eq_refl)).
    reflexivity.
  - apply (proj2 (@fallback_order (with_default "acme/unknown" env_blank)
                    dyn_first_empty VUndefined eq_refl eq_refl)
             eq_refl
             [ (js "idle", []) ] (js "acme") (js "acme-mini") (Compatible 1)
             [ (js "acme-large", Compatible 2) ] []).
    + reflexivity.
    + repeat constructor.
Defined.

(** [getModel] on a reference whose names [%Object.prototype%] does not
    answer to: a stored handle is returned, anything else is the fallback. *)
Lemma getModel_plain (L : Loaded) (r : ChatModel) :
  inheritedKey (provider r) = false -> inheritedKey (model r) = false ->
  getModel L (Some r) =
  Normal (match entry (registry L) (provider r) (model r) with
          | Some h => VModel h
          | None => fallbackModel L
          end).
Proof.
  intros Hp Hm. unfold getModel. rewrite (lookup_plain _ _ _ Hp Hm).
  destruct (entry (registry L) (provider r) (model r)); reflexivity.
Qed.

(** For such names, a reference whose provider is not in the registry, or
    whose model is not in that provider's mapping, gets what [getModel]
    returns without a reference. *)
Lemma getModel_unknown_plain (L : Loaded) (r : ChatModel) :
  inheritedKey (provider r) = false -> inheritedKey (model r) = false ->
  entry (registry L) (provider r) (model r) = None ->
  getModel L (Some r) = getModel L None.
Proof.
  intros Hp Hm He. rewrite (getModel_plain L r Hp Hm), He. reflexivity.
Qed.

(** C1, on the code.  With only [OPENAI_API_KEY] set the module loads and
    the fallback is the first-party ["gpt-4.1"].  The reference
    (["openai"], ["toString"]) names no model of that provider, and the
    reference (["constructor"], ["name"]) names no provider; [getModel]
    answers the first with the function [Object.prototype.toString] and the
    second with the string ["Object"], neither of which is the fallback. *)
Theorem getModel_reads_prototype_chain :
  exists L,
    load (with_openai "sk-test" env_blank) no_dynamic = Normal L /\
    getModel L None = Normal (VModel (openai "gpt-4.1")) /\
    JsObject.own (registry L) (js "openai") = Some openai_models /\
    JsObject.own openai_models (js "toString") = None /\
    getModel L (Some {| provider := js "openai"; model := js "toString" |})
    = Normal (VBuiltin "Object.prototype.toString") /\
    JsObject.own (registry L) (js "constructor") = None /\
    getModel L (Some {| provider := js "constructor"; model := js "name" |})
    = Normal (VString (js "Object")).
Proof.
  eexists. split; [reflexivity|]. repeat split.
Qed.

(** The same read raises when it reaches the ["caller"] accessor of
    [%Function.prototype%]. *)
Lemma getModel_can_throw :
  exists L,
    load (with_openai "sk-test" env_blank) no_dynamic = Normal L /\
    getModel L (Some {| provider := js "constructor"; model := js "caller" |})
    = Throw TypeError.
Proof. eexists. split; reflexivity. Qed.

(** Start-up with nothing configured, once the configured default has found
    nothing: the module does not load. *)
Lemma load_empty_throws (env : Env) (dyn : Dynamic) (found : Value) :
  configuredFound env dyn = Normal found -> truthy found = false ->
  conditionalStaticModels env = [] -> providers dyn = [] ->
  load env dyn = Throw noModels.
Proof.
  intros Hf Ht Hs Hd. unfold load.
  rewrite (resolveFallback_after_default _ _ Hf Ht).
  pose proof (static_own env P_openai) as Ho. rewrite Hs in Ho. simpl in Ho.
  unfold HAS_OPENAI. destruct (has (OPENAI_API_KEY env)); [discriminate|].
  unfold allModels. rewrite Hs, Hd. reflexivity.
Qed.

(** Start-up with a model somewhere in the merged registry, when the read of
    the configured default does not raise: the module loads. *)
Lemma load_available (env : Env) (dyn : Dynamic) (found : Value) p models :
  configuredFound env dyn = Normal found ->
  JsObject.own (allModels env dyn) p = Some models -> models <> [] ->
  exists L, load env dyn = Normal L.
Proof.
  intros Hf Ho Hne. unfold load.
  destruct (truthy found) eqn:Ht.
  - unfold resolveFallback. rewrite Hf, Ht. eexists; reflexivity.
  - rewrite (resolveFallback_after_default _ _ Hf Ht).
    destruct (HAS_OPENAI env); [eexists; reflexivity|].
    destruct (@firstValue_some _ _ _ (@own_In _ _ _ _ Ho) Hne) as [h ->].
    eexists; reflexivity.
Qed.

(** Start-up with a provider configured can still raise, when the read of
    the configured default reaches the ["caller"] accessor. *)
Lemma load_can_throw_with_providers :
  JsObject.own (allModels (with_default "constructor/caller"
                             (with_openai "sk-test" env_blank)) no_dynamic)
               (js "openai") = Some openai_models /\
  load (with_default "constructor/caller" (with_openai "sk-test" env_blank))
       no_dynamic = Throw TypeError.
Proof. split; reflexivity. Qed.

(** C3, on the code.  With every presence variable unset and no dynamic
    provider, so that the static catalog and the merged registry are both
    empty, and [E2E_DEFAULT_MODEL] set to ["__proto__/toString"], the read
    [allModels?.["__proto__"]?.["toString"]] is a function, [resolveFallback]
    returns it and the module loads with it as its fallback model. *)
Theorem empty_registry_loads :
  conditionalStaticModels (with_default "__proto__/toString" env_blank) = [] /\
  allModels (with_default "__proto__/toString" env_blank) no_dynamic = [] /\
  load (with_default "__proto__/toString" env_blank) no_dynamic
  = Normal {| registry := [];
              unsupported := [];
              fallbackModel := VBuiltin "Object.prototype.toString" |}.
Proof. repeat split. Qed.

Lemma own_spread_origin (V : Type) (src o : Obj V) k v :
  JsObject.own (JsObject.spread o src) k = Some v ->
  In (k, v) src \/ JsObject.own o k = Some v.
Proof.
  unfold JsObject.spread. revert o.
  induction src as [|[k' v'] src IH]; simpl; intros o H; [right; assumption|].
  destruct (IH _ H) as [Hin | Hset]; [left; right; assumption|].
  destruct (JsString.eqb k' k) eqn:E.
  - apply JsString_eqb_eq in E; subst k'. rewrite own_set_same in Hset.
    injection Hset; intros; subst v'. left; left; reflexivity.
  - apply JsString_eqb_neq in E. rewrite own_set_other in Hset by assumption.
    right; assumption.
Qed.

(** C10.  A handle the dynamic catalog builder flagged, stored in the
    dynamic catalog under a provider name the static catalog also defines,
    is in the merged unsupported set, while the merged registry holds the
    static mapping under that name; and when the handle is stored nowhere
    else in the dynamic catalog and is not a handle of the static catalog,
    no (provider, model) pair of the merged registry leads to it. *)
Theorem flagged_handle_outlives_its_provider (env : Env) (dyn : Dynamic)
    (p m : jsstring) (h : LanguageModel)
    (dynamicMapping staticMapping : Obj LanguageModel) :
  In h (unsupportedModels dyn) ->
  JsObject.own (providers dyn) p = Some dynamicMapping ->
  JsObject.own dynamicMapping m = Some h ->
  JsObject.own (conditionalStaticModels env) p = Some staticMapping ->
  isToolCallUnsupportedModel env dyn h = true /\
  JsObject.own (allModels env dyn) p = Some staticMapping /\
  ((forall p' models' m',
      In (p', models') (providers dyn) -> In (m', h) models' -> p' = p) ->
   ~ reachable (conditionalStaticModels env) h ->
   ~ reachable (allModels env dyn) h).
Proof.
  intros Hflag Hd Hm Hs. split; [|split].
  - unfold isToolCallUnsupportedModel, allUnsupportedModels.
    rewrite JsSet_has_In, JsSet_from_In, in_app_iff. left; assumption.
  - apply allModels_own_static; assumption.
  - intros Hunique Hstatic (p' & m' & He). unfold entry in He.
    destruct (JsObject.own (allModels env dyn) p') as [models'|] eqn:Ea;
      [|discriminate].
    destruct (JsObject.own (conditionalStaticModels env) p') as [sm|] eqn:Es.
    + rewrite (@allModels_own_static env dyn _ _ Es) in Ea.
      injection Ea; intros; subst models'.
      apply Hstatic. exists p', m'. unfold entry. rewrite Es. exact He.
    + unfold allModels in Ea. rewrite own_spread_absent in Ea by assumption.
      apply own_spread_origin in Ea. destruct Ea as [Hin | Hnil]; [|discriminate].
      assert (p' = p) by (eapply Hunique; [exact Hin | apply own_In; exact He]).
      subst p'. congruence.
Qed.

Lemma flagged_handle_outlives_its_provider_witness :
  isToolCallUnsupportedModel (with_openai "sk-test" env_blank) dyn_shadowing
                             (Compatible 1) = true /\
  JsObject.own (allModels (with_openai "sk-test" env_blank) dyn_shadowing)
               (js "openai") = Some openai_models /\
  ~ reachable (allModels (with_openai "sk-test" env_blank) dyn_shadowing)
              (Compatible 1).
Proof.
  destruct (@flagged_handle_outlives_its_provider
              (with_openai "sk-test" env_blank) dyn_shadowing
              (js "openai") (js "local-llm") (Compatible 1)
              [ (js "local-llm", Compatible 1) ] openai_models)
    as (H1 & H2 & H3).
  - left; reflexivity.
  - reflexivity.
  - reflexivity.
  - reflexivity.
  - split; [exact H1|]. split; [exact H2|]. apply H3.
    + intros p' models' m' [Hin | [Hin | []]] Hm;
        injection Hin; intros; subst; [reflexivity|].
      destruct Hm as [Hm | []]. discriminate Hm.
    + intros (p' & m' & He). unfold entry in He.
      destruct (JsObject.own (conditionalStaticModels (with_openai "sk-test" env_blank)) p')
        as [models'|] eqn:Eo; [|discriminate].
      apply own_In in Eo. destruct Eo as [Eo | []].
      injection Eo; intros; subst. apply own_In in He.
      repeat (destruct He as [He | He]; [discriminate He|]). destruct He.
Defined.

(** ** The dynamic catalog builder *)

Module CompatibleCatalogFacts.
Import CompatibleCatalog.

Lemma addProvider_keys (st : Registry * list LanguageModel * N) e :
  JsObject.keys (fst (fst (addProvider st e))) =
  match JsObject.own (fst (fst st)) (fst e) with
  | Some _ => JsObject.keys (fst (fst st))
  | None => JsObject.keys (fst (fst st)) ++ [fst e]
  end.
Proof.
  destruct st as [[reg flagged] next]. unfold addProvider.
  destruct (fold_left addModel (snd e) (JsObject.empty _, flagged, next))
    as [[mapping flagged'] next'].
  simpl. apply keys_set.
Qed.

Lemma fold_addProvider_keys config (st : Registry * list LanguageModel * N) n :
  In n (JsObject.keys (fst (fst (fold_left addProvider config st)))) <->
  In n (JsObject.keys (fst (fst st))) \/ In n (List.map fst config).
Proof.
  revert st. induction config as [|e config IH]; intros st; simpl; [tauto|].
  rewrite IH, addProvider_keys.
  destruct (JsObject.own (fst (fst st)) (fst e)) eqn:E.
  - apply own_In_keys in E. intuition (subst; auto).
  - rewrite in_app_iff. simpl. tauto.
Qed.

Lemma fold_addProvider_NoDup config (st : Registry * list LanguageModel * N) :
  NoDup (JsObject.keys (fst (fst st))) ->
  NoDup (JsObject.keys (fst (fst (fold_left addProvider config st)))).
Proof.
  revert st. induction config as [|e config IH]; intros st H; simpl; [assumption|].
  apply IH. rewrite addProvider_keys.
  destruct (JsObject.own (fst (fst st)) (fst e)) eqn:E; [assumption|].
  apply own_None_keys in E.
  rewrite <- (rev_involutive (_ ++ _)). apply NoDup_rev.
  rewrite rev_app_distr. simpl.
  constructor; [rewrite <- in_rev; assumption | apply NoDup_rev; assumption].
Qed.

Lemma providers_create config :
  providers (createOpenAICompatibleModels config) =
  fst (fst (fold_left addProvider config (JsObject.empty _, [], 0%N))).
Proof.
  unfold createOpenAICompatibleModels.
  destruct (fold_left addProvider config (JsObject.empty _, [], 0%N)) as [[reg fl] nx].
  reflexivity.
Qed.

Lemma accept_names seen entries n :
  In n (List.map fst (accept seen entries)) <->
  ~ In n seen /\
  exists e, In e entries /\ wellFormed e = true /\ name e = Some n.
Proof.
  revert seen. induction entries as [|e rest IH]; intros seen; simpl.
  - split; [tauto | intros (_ & e & [] & _)].
  - assert (V : forall n', (exists ms, validate e = Some (n', ms)) <->
                           wellFormed e = true /\ name e = Some n').
    { intros n'. unfold wellFormed, validate.
      destruct (name e) as [n0|]; [|split; [intros [? H]; discriminate | intros [H _]; discriminate]].
      destruct (baseURL e); [|split; [intros [? H]; discriminate | intros [H _]; discriminate]].
      destruct (models e) as [[|m ms]|];
        try (split; [intros [? H]; discriminate | intros [H _]; discriminate]).
      split.
      - intros [? H]; injection H; intros; subst; auto.
      - intros [_ H]; injection H; intros; subst; eauto. }
    destruct (validate e) as [[n0 ms]|] eqn:Ev.
    + assert (Hn0 : wellFormed e = true /\ name e = Some n0) by (apply V; eauto).
      destruct (existsb (JsString.eqb n0) seen) eqn:Es.
      * rewrite IH. apply existsb_exists in Es. destruct Es as (x & Hx & Hxe).
        apply JsString_eqb_eq in Hxe; subst x.
        split.
        -- intros (Hs & e' & Hin & Hw & Hn). split; [assumption|]. eauto.
        -- intros (Hs & e' & [->|Hin] & Hw & Hn).
           ++ destruct Hn0 as [_ Hn0]. rewrite Hn0 in Hn.
              injection Hn; intros; subst. contradiction.
           ++ split; [assumption|]. eauto.
      * assert (Hns : ~ In n0 seen).
        { intros Hin.
          assert (existsb (JsString.eqb n0) seen = true).
          { apply existsb_exists. exists n0. split; [assumption|].
            apply JsString_eqb_refl. }
          congruence. }
        simpl. rewrite IH. simpl. split.
        -- intros [-> | (Hs & e' & Hin & Hw & Hn)].
           ++ split; [assumption|]. exists e. tauto.
           ++ split; [tauto|]. eauto.
        -- intros (Hs & e' & [->|Hin] & Hw & Hn).
           ++ destruct Hn0 as [_ Hn0]. rewrite Hn0 in Hn.
              injection Hn; intros; subst. left; reflexivity.
           ++ destruct (list_eq_dec N.eq_dec n0 n) as [->|Hne];
                [left; reflexivity | right].
              split; [intros [?|?]; [congruence | contradiction]|]. eauto.
    + rewrite IH. split.
      * intros (Hs & e' & Hin & Hw & Hn). split; [assumption|]. eauto.
      * intros (Hs & e' & [->|Hin] & Hw & Hn).
        -- unfold wellFormed in Hw. rewrite Ev in Hw. discriminate.
        -- split; [assumption|]. eauto.
Qed.

Lemma validate_fields (e : ProviderDefinition) n defs :
  validate e = Some (n, defs) <->
  wellFormed e = true /\ name e = Some n /\ models e = Some defs.
Proof.
  unfold wellFormed, validate.
  destruct (name e) as [n0|], (baseURL e) as [u|], (models e) as [[|d ds]|];
    (split; [intros H; try discriminate H | intros (H1 & H2 & H3); try discriminate H1]).
  - injection H; intros; subst. auto.
  - injection H2; injection H3; intros; subst. reflexivity.
Qed.

(** The first well-formed entry of a name is accepted, with its own model
    definitions. *)
Lemma accept_first seen pre e post n defs :
  validate e = Some (n, defs) -> ~ In n seen ->
  (forall e', In e' pre -> wellFormed e' = true -> name e' <> Some n) ->
  In (n, defs) (accept seen (pre ++ e :: post)).
Proof.
  intros Hv. revert seen. induction pre as [|e0 pre IH]; intros seen Hs Hpre; simpl.
  - rewrite Hv.
    destruct (existsb (JsString.eqb n) seen) eqn:Es; [|left; reflexivity].
    apply existsb_exists in Es. destruct Es as (x & Hx & Hxe).
    apply JsString_eqb_eq in Hxe; subst x. contradiction.
  - assert (Hrest : forall e', In e' pre -> wellFormed e' = true -> name e' <> Some n)
      by (intros e' Hin; apply Hpre; right; assumption).
    destruct (validate e0) as [[n0 ms0]|] eqn:E0; [|apply IH; assumption].
    apply validate_fields in E0. destruct E0 as (Hw0 & Hn0 & _).
    assert (Hne : n0 <> n).
    { intros ->. apply (Hpre e0 (or_introl eq_refl) Hw0 Hn0). }
    destruct (existsb (JsString.eqb n0) seen); [apply IH; assumption|].
    right. apply IH; [|assumption].
    intros [H|H]; [congruence | contradiction].
Qed.

Lemma accept_NoDup seen entries :
  NoDup (List.map fst (accept seen entries)).
Proof.
  revert seen. induction entries as [|e rest IH]; intros seen; simpl;
    [constructor|].
  destruct (validate e) as [[n ms]|]; [|apply IH].
  destruct (existsb (JsString.eqb n) seen); [apply IH|].
  simpl. constructor; [|apply IH].
  intros Hin. apply accept_names in Hin. destruct Hin as [Hin _].
  apply Hin. left; reflexivity.
Qed.

Lemma fold_addModel_keys defs (st : Obj LanguageModel * list LanguageModel * N) k :
  In k (JsObject.keys (fst (fst (fold_left addModel defs st)))) <->
  In k (JsObject.keys (fst (fst st))) \/ exists d, In d defs /\ modelName d = k.
Proof.
  revert st. induction defs as [|d defs IH]; intros st; simpl.
  - split; [auto | intros [H | (d & [] & _)]; assumption].
  - rewrite IH. destruct st as [[mapping flagged] next]. simpl.
    rewrite keys_set. split.
    + intros [H | (d' & Hin & Hd)]; [|right; eauto].
      destruct (JsObject.own mapping (modelName d)); [left; assumption|].
      apply in_app_iff in H. destruct H as [H | [H | []]]; [left; assumption|].
      right. exists d. auto.
    + intros [H | (d' & [-> | Hin] & Hd)].
      * left. destruct (JsObject.own mapping (modelName d)); [assumption|].
        apply in_app_iff; left; assumption.
      * left. subst k.
        destruct (JsObject.own mapping (modelName d')) eqn:E.
        -- eapply own_In_keys; eassumption.
        -- apply in_app_iff; right; left; reflexivity.
      * right. eauto.
Qed.

Lemma addProvider_own_other (st : Registry * list LanguageModel * N) e n :
  n <> fst e ->
  JsObject.own (fst (fst (addProvider st e))) n = JsObject.own (fst (fst st)) n.
Proof.
  intros Hne. destruct st as [[reg flagged] next]. unfold addProvider.
  destruct (fold_left addModel (snd e) (JsObject.empty _, flagged, next))
    as [[mapping flagged'] next'].
  simpl. apply own_set_other. congruence.
Qed.

Lemma fold_addProvider_own_other config (st : Registry * list LanguageModel * N) n :
  ~ In n (List.map fst config) ->
  JsObject.own (fst (fst (fold_left addProvider config st))) n
  = JsObject.own (fst (fst st)) n.
Proof.
  revert st. induction config as [|e config IH]; intros st Hn; simpl;
    [reflexivity|].
  simpl in Hn. rewrite IH by tauto. apply addProvider_own_other.
  intros ->. tauto.
Qed.

(** An accepted provider is stored with the mapping built from its own
    model definitions. *)
Lemma fold_addProvider_own config (st : Registry * list LanguageModel * N) n defs :
  NoDup (List.map fst config) -> In (n, defs) config ->
  exists flagged next,
    JsObject.own (fst (fst (fold_left addProvider config st))) n =
    Some (fst (fst (fold_left addModel defs (JsObject.empty _, flagged, next)))).
Proof.
  revert st. induction config as [|e config IH]; intros st Hnd Hin; simpl;
    [destruct Hin|].
  simpl in Hnd. inversion Hnd as [|? ? Hnotin Hnd']; subst.
  destruct Hin as [-> | Hin]; [|apply IH; assumption].
  simpl in Hnotin. rewrite fold_addProvider_own_other by assumption.
  destruct st as [[reg flagged] next]. exists flagged, next.
  unfold addProvider. simpl snd. simpl fst at 3.
  destruct (fold_left addModel defs (JsObject.empty _, flagged, next))
    as [[mapping flagged'] next'].
  simpl. apply own_set_same.
Qed.

(** C8.  In terms of the builder as the spec describes it: for a payload
    that parses, a provider is in the dynamic catalog exactly when some entry
    of the payload is well formed and carries that name, so entries with a
    missing field or an empty model list are left out without affecting the
    others, and no name is there twice; the first well-formed entry of a
    name is stored under that name with a mapping whose model names are
    exactly the names of its own model definitions, so its models reach the
    catalog and those of a later entry of the same name do not; three
    well-formed entries together with one entry lacking its model list give
    exactly three providers, each with its models, and still the same
    catalog when a second definition of ["beta"] follows; a payload that
    does not parse, or is unset, gives the empty catalog and the empty
    flagged set. *)
Theorem malformed_entries_isolated :
  (forall entries n,
     In n (JsObject.keys (providers (dynamicCatalog (Parsed entries)))) <->
     exists e, In e entries /\ wellFormed e = true /\ name e = Some n) /\
  (forall entries,
     NoDup (JsObject.keys (providers (dynamicCatalog (Parsed entries))))) /\
  (forall pre e post n defs,
     wellFormed e = true -> name e = Some n -> models e = Some defs ->
     (forall e', In e' pre -> wellFormed e' = true -> name e' <> Some n) ->
     exists mapping,
       JsObject.own (providers (dynamicCatalog (Parsed (pre ++ e :: post)))) n
       = Some mapping /\
       forall k, In k (JsObject.keys mapping) <->
                 exists d, In d defs /\ modelName d = k) /\
  JsObject.keys (providers (dynamicCatalog (Parsed three_and_one)))
  = [js "alpha"; js "beta"; js "gamma"] /\
  providers (dynamicCatalog (Parsed three_and_one))
  = [ (js "alpha", [ (js "a1", Compatible 0); (js "a2", Compatible 1) ]);
      (js "beta", [ (js "b1", Compatible 2) ]);
      (js "gamma", [ (js "g1", Compatible 3) ]) ] /\
  providers (dynamicCatalog (Parsed three_one_and_duplicate))
  = providers (dynamicCatalog (Parsed three_and_one)) /\
  dynamicCatalog Unparsable = {| providers := []; unsupportedModels := [] |} /\
  dynamicCatalog Unset = {| providers := []; unsupportedModels := [] |}.
Proof.
  split; [|split; [|split; [|repeat split]]].
  - intros entries n. unfold dynamicCatalog. rewrite providers_create.
    rewrite fold_addProvider_keys. simpl.
    rewrite accept_names. simpl. tauto.
  - intros entries. unfold dynamicCatalog. rewrite providers_create.
    apply fold_addProvider_NoDup. constructor.
  - intros pre e post n defs Hw Hn Hm Hpre.
    assert (Hv : validate e = Some (n, defs)) by (apply validate_fields; auto).
    unfold dynamicCatalog. rewrite providers_create. simpl.
    destruct (@fold_addProvider_own (accept [] (pre ++ e :: post))
                (JsObject.empty _, [], 0%N) n defs
                (accept_NoDup [] (pre ++ e :: post))
                (@accept_first [] pre e post n defs Hv (fun H => H) Hpre))
      as (flagged & next & Ho).
    eexists. split; [exact Ho|].
    intros k. rewrite fold_addModel_keys. simpl. tauto.
Qed.

Lemma malformed_entries_isolated_witness :
  exists mapping,
    JsObject.own (providers (dynamicCatalog (Parsed three_one_and_duplicate)))
                 (js "beta") = Some mapping /\
    forall k, In k (JsObject.keys mapping) <->
              exists d, In d [ {| modelName := js "b1"; supportsTools := None |} ]
                        /\ modelName d = k.
Proof.
  apply (proj1 (proj2 (proj2 malformed_entries_isolated))
           [ definition "alpha" ["a1"; "a2"]%string;
             {| name := Some (js "broken");
                baseURL := Some (js "https://example.test/v1");
                apiKey := None; models := None |} ]
           (definition "beta" ["b1"]%string)
           [ definition "gamma" ["g1"]%string;
             definition "beta" ["other"]%string ]
           (js "beta")
           [ {| modelName := js "b1"; supportsTools := None |} ]).
  - reflexivity.
  - reflexivity.
  - reflexivity.
  - intros e' [<- | [<- | []]] _ H; discriminate H.
Defined.

End CompatibleCatalogFacts.

(** * Further properties of the module *)

Unset Implicit Arguments.

(** ** The shape of a spread *)

Section Overlay.
Variable V : Type.
Implicit Types (o src : Obj V) (k : jsstring) (v : V).

Lemma keyIn_In ks k : keyIn ks k = true <-> In k ks.
Proof.
  unfold keyIn. rewrite existsb_exists. split.
  - intros (x & Hin & He). apply JsString_eqb_eq in He; subst; assumption.
  - intros Hin. exists k. split; [assumption | apply JsString_eqb_refl].
Qed.

Lemma keyIn_false ks k : keyIn ks k = false <-> ~ In k ks.
Proof.
  rewrite <- keyIn_In. destruct (keyIn ks k); split; congruence.
Qed.

Lemma set_absent o k v :
  JsObject.own o k = None -> JsObject.set o k v = o ++ [(k, v)].
Proof.
  induction o as [|[k' v'] o IH]; simpl; [reflexivity|].
  destruct (JsString.eqb k k'); [discriminate|].
  intros H. rewrite (IH H). reflexivity.
Qed.

Lemma set_present o k v v0 :
  NoDup (JsObject.keys o) -> JsObject.own o k = Some v0 ->
  JsObject.set o k v =
  List.map (fun kv => if JsString.eqb k (fst kv) then (fst kv, v) else kv) o.
Proof.
  induction o as [|[k' v'] o IH]; simpl; [discriminate|].
  intros Hnd. inversion Hnd as [|? ? Hnotin Hnd']; subst.
  destruct (JsString.eqb k k') eqn:E.
  - intros _. f_equal. apply JsString_eqb_eq in E; subst k'.
    rewrite <- (map_id o) at 1. apply map_ext_in. intros [k1 v1] Hin. simpl.
    destruct (JsString.eqb k k1) eqn:E1; [|reflexivity].
    apply JsString_eqb_eq in E1; subst k1.
    elim Hnotin. apply (in_map fst) in Hin. exact Hin.
  - intros H. rewrite (IH Hnd' H). reflexivity.
Qed.

Lemma keys_map_values o (f : jsstring * V -> jsstring * V) :
  (forall kv, fst (f kv) = fst kv) ->
  JsObject.keys (List.map f o) = JsObject.keys o.
Proof.
  intros Hf. unfold JsObject.keys. rewrite map_map. apply map_ext. exact Hf.
Qed.

(** Spreading [src] into an object being built as [o]: the properties of
    [o] stay where they are and take the values [src] has for them; the
    properties of [src] that are new follow, in the order of [src]. *)
Lemma spread_overlay src o :
  NoDup (JsObject.keys o) -> NoDup (JsObject.keys src) ->
  JsObject.spread o src = overlay o src.
Proof.
  revert o. induction src as [|[k v] src IH]; intros o Ho Hs.
  - unfold overlay. simpl. rewrite app_nil_r.
    rewrite <- (map_id o) at 1. apply map_ext. intros [k v]; reflexivity.
  - simpl in Hs. inversion Hs as [|? ? Hk Hs']; subst.
    change (JsObject.spread o ((k, v) :: src))
      with (JsObject.spread (JsObject.set o k v) src).
    rewrite (IH _ (@NoDup_keys_set _ o k v Ho) Hs').
    assert (Hsrc : JsObject.own src k = None) by (apply own_None_keys; assumption).
    unfold overlay. destruct (JsObject.own o k) as [v0|] eqn:Eo.
    + rewrite (@set_present o k v v0 Ho Eo).
      rewrite keys_map_values
        by (intros [k1 v1]; simpl; destruct (JsString.eqb k k1); reflexivity).
      rewrite map_map. simpl filter.
      assert (Hin : keyIn (JsObject.keys o) k = true)
        by (apply keyIn_In; eapply own_In_keys; eassumption).
      rewrite Hin. simpl. f_equal.
      apply map_ext. intros [k1 v1]. simpl.
      rewrite (JsString_eqb_sym k1 k).
      destruct (JsString.eqb k k1) eqn:E1; simpl.
      * apply JsString_eqb_eq in E1; subst k1. rewrite Hsrc. reflexivity.
      * reflexivity.
    + rewrite (@set_absent o k v Eo). rewrite map_app. simpl map.
      rewrite Hsrc. simpl filter.
      assert (Hin : keyIn (JsObject.keys o) k = false)
        by (apply keyIn_false; apply own_None_keys; assumption).
      rewrite Hin. simpl. rewrite <- app_assoc. simpl. f_equal.
      * apply map_ext_in. intros [k1 v1] Hk1. simpl.
        destruct (JsString.eqb k1 k) eqn:E1; [|reflexivity].
        apply JsString_eqb_eq in E1; subst k1.
        apply (in_map fst) in Hk1. apply own_None_keys in Eo. contradiction.
      * f_equal. apply filter_ext_in. intros [k1 v1] Hk1. simpl. f_equal.
        unfold JsObject.keys. rewrite map_app. simpl.
        unfold keyIn. rewrite existsb_app. simpl.
        destruct (JsString.eqb k1 k) eqn:E1.
        -- apply JsString_eqb_eq in E1; subst k1.
           apply (in_map fst) in Hk1. contradiction.
        -- rewrite orb_false_r. reflexivity.
Qed.

Lemma spread_into_empty src :
  NoDup (JsObject.keys src) -> JsObject.spread (JsObject.empty V) src = src.
Proof.
  intros Hs. rewrite spread_overlay by (assumption || constructor).
  unfold overlay. simpl. induction src as [|kv src IH]; [reflexivity|].
  simpl. f_equal. apply IH. inversion Hs; assumption.
Qed.

End Overlay.

(** ** The merged registry, in full *)

(** The keys of the static catalog are those of the present providers, in
    source order. *)
Lemma static_keys (env : Env) :
  JsObject.keys (conditionalStaticModels env) =
  List.map (fun pr => js (providerKey pr))
           (filter (fun pr => has (presenceSignal pr env)) sourceOrder).
Proof.
  unfold conditionalStaticModels, sourceOrder,
    HAS_OPENAI, HAS_GOOGLE, HAS_ANTHROPIC, HAS_XAI, HAS_OPENROUTER, HAS_OLLAMA.
  simpl filter. simpl presenceSignal.
  destruct (has (OPENAI_API_KEY env)), (has (GOOGLE_GENERATIVE_AI_API_KEY env)),
    (has (ANTHROPIC_API_KEY env)), (has (XAI_API_KEY env)),
    (has (OLLAMA_BASE_URL env)), (has (OPENROUTER_API_KEY env)); reflexivity.
Qed.

(** What the static catalog holds: under the key of a present first-party
    provider, that provider's mapping; nothing else. *)
Lemma static_In (env : Env) p models :
  In (p, models) (conditionalStaticModels env) <->
  exists pr, p = js (providerKey pr) /\ has (presenceSignal pr env) = true /\
             models = staticModels pr env.
Proof.
  split.
  - intros Hin.
    pose proof (In_own _ _ _ (static_keys_NoDup env) Hin) as Ho.
    assert (Hk : In p (JsObject.keys (conditionalStaticModels env)))
      by (eapply own_In_keys; eassumption).
    rewrite static_keys in Hk. apply in_map_iff in Hk.
    destruct Hk as (pr & Hp & Hpr). apply filter_In in Hpr.
    destruct Hpr as [_ Hpr]. subst p. exists pr. split; [reflexivity|].
    split; [assumption|]. rewrite static_own, Hpr in Ho. congruence.
  - intros (pr & -> & Hpr & ->). apply own_In. rewrite static_own, Hpr.
    reflexivity.
Qed.

Lemma filter_keys (V : Type) (P : jsstring -> bool) (o : Obj V) :
  JsObject.keys (filter (fun kv => P (fst kv)) o) = filter P (JsObject.keys o).
Proof.
  induction o as [|[k v] o IH]; simpl; [reflexivity|].
  destruct (P k); simpl; rewrite IH; reflexivity.
Qed.

Lemma filter_map_filter (A B : Type) (f : A -> B) (P : B -> bool) (Q : A -> bool) l :
  filter P (List.map f (filter Q l)) =
  List.map f (filter (fun a => Q a && P (f a)) l).
Proof.
  induction l as [|a l IH]; simpl; [reflexivity|].
  destruct (Q a); simpl; [|assumption].
  destruct (P (f a)); simpl; rewrite IH; reflexivity.
Qed.

Lemma overlay_keys (V : Type) (base top : Obj V) :
  JsObject.keys (overlay base top) =
  JsObject.keys base
  ++ filter (fun k => negb (keyIn (JsObject.keys base) k)) (JsObject.keys top).
Proof.
  unfold overlay, JsObject.keys at 1. rewrite map_app, map_map. simpl.
  f_equal. apply (filter_keys V (fun k => negb (keyIn (JsObject.keys base) k))).
Qed.

(** The two spreads of [allModels], for a dynamic catalog with no key
    twice. *)
Lemma allModels_overlay (env : Env) (dyn : Dynamic) :
  NoDup (JsObject.keys (providers dyn)) ->
  allModels env dyn = overlay (providers dyn) (conditionalStaticModels env).
Proof.
  intros Hd. unfold allModels. rewrite (spread_into_empty _ _ Hd).
  apply spread_overlay; [assumption | apply static_keys_NoDup].
Qed.

(** X1.  The merged registry, for a dynamic catalog that is an object (no
    key twice): the dynamic providers in their own order, each with the
    static mapping when the static catalog has that name and its own mapping
    otherwise, followed by the static providers the dynamic catalog does not
    name, in the order of the static catalog. *)
Theorem merged_registry_layout (env : Env) (dyn : Dynamic) :
  NoDup (JsObject.keys (providers dyn)) ->
  allModels env dyn = overlay (providers dyn) (conditionalStaticModels env).
Proof. apply allModels_overlay. Qed.

Lemma merged_registry_layout_witness :
  allModels (with_ollama "http://box:11434/api" (with_openai "sk-test" env_blank))
            dyn_shadowing
  = [ (js "openai", openai_models);
      (js "acme", [ (js "acme-mini", Compatible 2) ]);
      (js "ollama",
       ollama_models (with_ollama "http://box:11434/api"
                        (with_openai "sk-test" env_blank))) ].
Proof.
  rewrite (@merged_registry_layout
             (with_ollama "http://box:11434/api" (with_openai "sk-test" env_blank))
             dyn_shadowing).
  - reflexivity.
  - repeat constructor; simpl; intuition discriminate.
Defined.

(** ** The listing *)

Lemma load_fields (env : Env) (dyn : Dynamic) (L : Loaded) :
  load env dyn = Normal L ->
  registry L = allModels env dyn /\
  unsupported L = allUnsupportedModels env dyn /\
  resolveFallback env dyn = Normal (fallbackModel L).
Proof.
  unfold load. destruct (resolveFallback env dyn) as [fb|e]; [|discriminate].
  intros H; injection H; intros; subst L. simpl. auto.
Qed.

(** X2.  The listing names each provider of the merged registry once: first
    the dynamic providers in their own order, then the present first-party
    providers whose name no dynamic provider uses, in the order openai,
    google, anthropic, xai, ollama, openRouter. *)
Theorem listing_order (env : Env) (dyn : Dynamic) (L : Loaded) :
  NoDup (JsObject.keys (providers dyn)) ->
  load env dyn = Normal L ->
  List.map Listing.provider (Listing.modelsInfo L) =
    JsObject.keys (providers dyn)
    ++ List.map (fun pr => js (providerKey pr))
         (filter (fun pr => has (presenceSignal pr env) &&
                            negb (keyIn (JsObject.keys (providers dyn))
                                        (js (providerKey pr))))
                 sourceOrder) /\
  NoDup (List.map Listing.provider (Listing.modelsInfo L)).
Proof.
  intros Hd Hl. destruct (load_fields env dyn L Hl) as (Hr & _ & _).
  assert (Hk : List.map Listing.provider (Listing.modelsInfo L)
               = JsObject.keys (allModels env dyn)).
  { unfold Listing.modelsInfo. rewrite map_map, Hr. reflexivity. }
  rewrite Hk. split; [|apply allModels_keys_NoDup].
  rewrite (allModels_overlay env dyn Hd), overlay_keys, static_keys.
  f_equal.
  apply (filter_map_filter _ _ (fun pr => js (providerKey pr))
           (fun k => negb (keyIn (JsObject.keys (providers dyn)) k))
           (fun pr => has (presenceSignal pr env))).
Qed.

Lemma listing_order_witness :
  exists L,
    load (with_ollama "http://box:11434/api" (with_openai "sk-test" env_blank))
         dyn_shadowing = Normal L /\
    List.map Listing.provider (Listing.modelsInfo L)
    = [js "openai"; js "acme"; js "ollama"].
Proof.
  eexists. split; [reflexivity|].
  refine (proj1 (listing_order
                   (with_ollama "http://box:11434/api" (with_openai "sk-test" env_blank))
                   dyn_shadowing _ _ eq_refl)).
  repeat constructor; simpl; intuition discriminate.
Defined.

Lemma staticModels_keys_NoDup (pr : FirstPartyProvider) (env : Env) :
  NoDup (JsObject.keys (staticModels pr env)).
Proof.
  destruct pr; simpl;
    repeat (constructor; [simpl; intuition discriminate|]); constructor.
Qed.

(** Each mapping of the merged registry is a mapping of the static catalog
    or of the dynamic catalog, under the same key. *)
Lemma allModels_origin (env : Env) (dyn : Dynamic) p models :
  JsObject.own (allModels env dyn) p = Some models ->
  In (p, models) (conditionalStaticModels env) \/ In (p, models) (providers dyn).
Proof.
  unfold allModels. intros H.
  apply own_spread_origin in H. destruct H as [H | H]; [left; assumption|].
  apply own_spread_origin in H. destruct H as [H | H]; [right; assumption|].
  discriminate.
Qed.

Lemma allModels_mappings_NoDup (env : Env) (dyn : Dynamic) p models :
  Forall (fun pm => NoDup (JsObject.keys (snd pm))) (providers dyn) ->
  JsObject.own (allModels env dyn) p = Some models ->
  NoDup (JsObject.keys models).
Proof.
  intros Hd Ho. destruct (allModels_origin env dyn p models Ho) as [Hs | Hdyn].
  - apply static_In in Hs. destruct Hs as (pr & _ & _ & ->).
    apply staticModels_keys_NoDup.
  - rewrite Forall_forall in Hd. apply (Hd (p, models) Hdyn).
Qed.

(** X3.  Every model the listing shows can be asked for: with the provider
    and model names of a listed entry, [getModel] returns a handle (also when
    a name is one [%Object.prototype%] answers to), and the flag the listing
    shows is [isToolCallUnsupportedModel] of that handle. *)
Theorem listed_model_resolves (env : Env) (dyn : Dynamic) (L : Loaded)
    (pi : Listing.ProviderInfo) (mi : Listing.ModelInfo) :
  Forall (fun pm => NoDup (JsObject.keys (snd pm))) (providers dyn) ->
  load env dyn = Normal L ->
  In pi (Listing.modelsInfo L) -> In mi (Listing.models pi) ->
  exists h,
    getModel L (Some {| provider := Listing.provider pi;
                        model := Listing.name mi |}) = Normal (VModel h) /\
    entry (allModels env dyn) (Listing.provider pi) (Listing.name mi) = Some h /\
    Listing.isToolCallUnsupported mi = isToolCallUnsupportedModel env dyn h.
Proof.
  intros Hd Hl Hpi Hmi. destruct (load_fields env dyn L Hl) as (Hr & Hu & _).
  unfold Listing.modelsInfo in Hpi. apply in_map_iff in Hpi.
  destruct Hpi as ([p models] & <- & Hin). simpl in *.
  apply in_map_iff in Hmi. destruct Hmi as ([n h] & <- & Hn). simpl in *.
  rewrite Hr in Hin.
  pose proof (In_own _ _ _ (allModels_keys_NoDup env dyn) Hin) as Ho.
  pose proof (In_own _ _ _ (allModels_mappings_NoDup env dyn p models Hd Ho) Hn)
    as Hm.
  assert (He : entry (allModels env dyn) p n = Some h)
    by (unfold entry; rewrite Ho; exact Hm).
  exists h. split; [|split].
  - unfold getModel. simpl. rewrite Hr, (lookup_entry _ _ _ He). reflexivity.
  - exact He.
  - rewrite Hu. reflexivity.
Qed.

Lemma listed_model_resolves_witness :
  exists L,
    load env_blank dyn_odd_names = Normal L /\
    exists h,
      getModel L (Some {| provider := js "constructor"; model := js "toString" |})
      = Normal (VModel h) /\
      entry (allModels env_blank dyn_odd_names) (js "constructor") (js "toString")
      = Some h /\
      true = isToolCallUnsupportedModel env_blank dyn_odd_names h.
Proof.
  eexists. split; [reflexivity|].
  refine (listed_model_resolves env_blank dyn_odd_names _
            {| Listing.provider := js "constructor";
               Listing.models :=
                 [ {| Listing.name := js "name";
                      Listing.isToolCallUnsupported := false |};
                   {| Listing.name := js "toString";
                      Listing.isToolCallUnsupported := true |} ] |}
            {| Listing.name := js "toString";
               Listing.isToolCallUnsupported := true |}
            _ eq_refl _ _).
  - repeat constructor; simpl; intuition discriminate.
  - left; reflexivity.
  - right; left; reflexivity.
Defined.

(** ** What a read of the registry can yield *)

(** A read yields a handle only from own properties. *)
Lemma lookup_model_entry (o : Registry) p m h :
  lookup o p m = Normal (VModel h) -> entry o p m = Some h.
Proof.
  unfold lookup, entry, Proto.get_literal.
  destruct (JsObject.own o p) as [models|].
  - destruct (JsObject.own models m) as [h'|]; [congruence|].
    destruct (Proto.named "__proto__" m); [discriminate|].
    destruct (Proto.find_method m); discriminate.
  - destruct (Proto.named "__proto__" p).
    + unfold Proto.get_object_prototype.
      destruct (Proto.named "__proto__" m); [discriminate|].
      destruct (Proto.find_method m); discriminate.
    + destruct (Proto.find_method p) as [f|]; [|discriminate].
      unfold Proto.get_method, Proto.get_object_prototype.
      repeat match goal with
             | |- context [if ?c then _ else _] => destruct c
             | |- context [match ?c with Some _ => _ | None => _ end] => destruct c
             end; discriminate.
Qed.

(** A read raises only a [TypeError], and only when the first name is not
    an own key but a method of [%Object.prototype%] and the second is
    ["caller"] or ["arguments"]. *)
Lemma lookup_raises (o : Registry) p m e :
  lookup o p m = Throw e ->
  e = TypeError /\ JsObject.own o p = None /\
  (exists f, Proto.find_method p = Some f) /\
  Proto.among ["caller"; "arguments"]%string m = true.
Proof.
  unfold lookup, Proto.get_literal.
  destruct (JsObject.own o p) as [models|].
  - destruct (JsObject.own models m); [discriminate|].
    destruct (Proto.named "__proto__" m); [discriminate|].
    destruct (Proto.find_method m); discriminate.
  - destruct (Proto.named "__proto__" p); [discriminate|].
    destruct (Proto.find_method p) as [f|]; [|discriminate].
    unfold Proto.get_method.
    destruct (Proto.among ["caller"; "arguments"]%string m) eqn:Ea.
    + intros H.
      assert (e = TypeError).
      { revert H.
        repeat match goal with
               | |- context [if ?c then _ else _] => destruct c
               | |- context [match ?c with Some _ => _ | None => _ end] => destruct c
               end; try discriminate; congruence. }
      repeat split; eauto.
    + repeat match goal with
             | |- context [if ?c then _ else _] => destruct c
             | |- context [match ?c with Some _ => _ | None => _ end] => destruct c
             end; discriminate.
Qed.

(** X4.  [getModel] raises nothing but a [TypeError], and only for a
    reference whose provider is not a key of the registry but the name of a
    method of [%Object.prototype%], and whose model is ["caller"] or
    ["arguments"]; for a provider the registry has, it always returns. *)
Theorem getModel_raises_only (L : Loaded) (r : ChatModel) (e : Exception) :
  getModel L (Some r) = Throw e ->
  e = TypeError /\
  JsObject.own (registry L) (provider r) = None /\
  (exists f, Proto.find_method (provider r) = Some f) /\
  Proto.among ["caller"; "arguments"]%string (model r) = true.
Proof.
  unfold getModel.
  destruct (lookup (registry L) (provider r) (model r)) as [v|e'] eqn:El;
    [discriminate|].
  intros H; injection H; intros; subst e'. eapply lookup_raises; eassumption.
Qed.

Lemma getModel_raises_only_witness :
  TypeError = TypeError /\
  JsObject.own (allModels (with_openai "sk-test" env_blank) no_dynamic)
               (js "hasOwnProperty") = None /\
  (exists f, Proto.find_method (js "hasOwnProperty") = Some f) /\
  Proto.among ["caller"; "arguments"]%string (js "arguments") = true.
Proof.
  apply (getModel_raises_only
           {| registry := allModels (with_openai "sk-test" env_blank) no_dynamic;
              unsupported := allUnsupportedModels (with_openai "sk-test" env_blank)
                                                  no_dynamic;
              fallbackModel := VModel (openai "gpt-4.1") |}
           {| provider := js "hasOwnProperty"; model := js "arguments" |}
           TypeError).
  reflexivity.
Defined.

(** Whatever [resolveFallback] returns is truthy, and when it is a handle
    the merged registry stores it. *)
Lemma resolveFallback_result (env : Env) (dyn : Dynamic) (v : Value) :
  resolveFallback env dyn = Normal v ->
  truthy v = true /\
  (forall h, v = VModel h -> reachable (allModels env dyn) h).
Proof.
  unfold resolveFallback.
  destruct (configuredFound env dyn) as [found|e] eqn:Ef; [|discriminate].
  destruct (truthy found) eqn:Et.
  - intros H; injection H; intros; subst v. split; [assumption|].
    intros h ->. unfold configuredFound in Ef.
    destruct (JsString.includes JsString.slash (configuredDefault env));
      [|discriminate].
    apply lookup_model_entry in Ef. eexists _, _; eassumption.
  - rewrite preferred_read. destruct (HAS_OPENAI env) eqn:Eo; simpl.
    + intros H; injection H; intros; subst v. split; [reflexivity|].
      intros h Hh; injection Hh; intros; subst h.
      exists (js "openai"), (js "gpt-4.1"). unfold entry.
      rewrite (@allModels_own_static env dyn (js "openai") openai_models);
        [reflexivity|].
      pose proof (static_own env P_openai) as Ho. simpl in Ho.
      unfold HAS_OPENAI in Eo. rewrite Eo in Ho. exact Ho.
    + rewrite firstAvailable_firstValue by apply allModels_keys_NoDup.
      destruct (firstValue (allModels env dyn)) as [h0|] eqn:Ev.
      * intros H; injection H; intros; subst v. split; [reflexivity|].
        intros h Hh; injection Hh; intros; subst h0.
        clear - Ev. pose proof (allModels_keys_NoDup env dyn) as Hnd.
        revert Ev Hnd. generalize (allModels env dyn) as reg.
        intros reg Ev Hnd.
        assert (G : exists p models m,
                   In (p, models) reg /\ JsObject.own models m = Some h).
        { clear Hnd. induction reg as [|[k models] reg IH]; simpl in Ev;
            [discriminate|].
          destruct models as [|[m h'] rest]; simpl in Ev.
          - destruct (IH Ev) as (p & ms & m & Hin & Hm).
            exists p, ms, m. split; [right; assumption | assumption].
          - injection Ev; intros; subst h'.
            exists k, ((m, h) :: rest), m. split; [left; reflexivity|].
            simpl. rewrite JsString_eqb_refl. reflexivity. }
        destruct G as (p & models & m & Hin & Hm).
        exists p, m. unfold entry. rewrite (In_own _ _ _ Hnd Hin). exact Hm.
      * destruct (ollama_covered_by_loop env dyn)
          as [Hnone | (_ & _ & _ & h & Hh)].
        -- unfold lastResort.
           rewrite (get_literal_plain _ _ Hnone) by reflexivity. discriminate.
        -- rewrite firstAvailable_firstValue in Hh
             by apply allModels_keys_NoDup.
           congruence.
Qed.

(** X5.  Once the module has loaded, a fallback model that is a handle is a
    handle of the merged registry: some (provider, model) pair of the
    listing leads to it. *)
Theorem fallback_is_registered (env : Env) (dyn : Dynamic) (L : Loaded)
    (h : LanguageModel) :
  load env dyn = Normal L -> fallbackModel L = VModel h ->
  reachable (registry L) h.
Proof.
  intros Hl Hf. destruct (load_fields env dyn L Hl) as (Hr & _ & Hres).
  rewrite Hr. apply (proj2 (resolveFallback_result env dyn _ Hres)).
  assumption.
Qed.

Lemma fallback_is_registered_witness :
  reachable (allModels (with_ollama "http://box:11434/api" env_blank) dyn_first_empty)
            (Compatible 1).
Proof.
  apply (fallback_is_registered
           (with_ollama "http://box:11434/api" env_blank) dyn_first_empty
           {| registry := allModels (with_ollama "http://box:11434/api" env_blank)
                                    dyn_first_empty;
              unsupported := allUnsupportedModels
                               (with_ollama "http://box:11434/api" env_blank)
                               dyn_first_empty;
              fallbackModel := VModel (Compatible 1) |}
           (Compatible 1)); reflexivity.
Defined.

(** X6.  [getModel] never returns a falsy value: what it returns, with or
    without a reference, is truthy. *)
Theorem getModel_truthy (env : Env) (dyn : Dynamic) (L : Loaded)
    (ref : option ChatModel) (v : Value) :
  load env dyn = Normal L -> getModel L ref = Normal v -> truthy v = true.
Proof.
  intros Hl Hg. destruct (load_fields env dyn L Hl) as (_ & _ & Hres).
  pose proof (proj1 (resolveFallback_result env dyn _ Hres)) as Hfb.
  unfold getModel in Hg. destruct ref as [r|].
  - destruct (lookup (registry L) (provider r) (model r)) as [x|e];
      [|discriminate].
    injection Hg; intros; subst v. destruct (truthy x) eqn:Ex; assumption.
  - injection Hg; intros; subst v. assumption.
Qed.

Lemma getModel_truthy_witness :
  truthy (VModel (openai "gpt-4.1")) = true.
Proof.
  apply (getModel_truthy
           (with_openai "sk-test" env_blank) no_dynamic
           {| registry := allModels (with_openai "sk-test" env_blank) no_dynamic;
              unsupported := allUnsupportedModels (with_openai "sk-test" env_blank)
                                                  no_dynamic;
              fallbackModel := VModel (openai "gpt-4.1") |}
           (Some {| provider := js "toString"; model := js "length" |})
           (VModel (openai "gpt-4.1"))); reflexivity.
Defined.

(** ** Start-up *)

Lemma firstValue_none_inv (reg : Registry) :
  firstValue reg = None -> Forall (fun pm => snd pm = []) reg.
Proof.
  induction reg as [|[k models] reg IH]; simpl; intros H; constructor.
  - simpl. destruct models as [|[m h] rest]; [reflexivity | discriminate].
  - apply IH. destruct (JsObject.values models); [assumption | discriminate].
Qed.

(** X7.  When the configured default finds nothing, start-up fails exactly
    when no provider of the merged registry has a model (the registry may
    well have providers, with empty mappings), and the only error it can
    raise is the "No models are available" one. *)
Theorem startup_fails_iff (env : Env) (dyn : Dynamic) (found : Value) :
  configuredFound env dyn = Normal found -> truthy found = false ->
  (load env dyn = Throw noModels <->
   Forall (fun pm => snd pm = []) (allModels env dyn)) /\
  (forall e, load env dyn = Throw e -> e = noModels).
Proof.
  intros Hf Ht. unfold load. rewrite (resolveFallback_after_default _ _ Hf Ht).
  destruct (HAS_OPENAI env) eqn:Eo.
  - split; [split; [discriminate|] | discriminate].
    intros Hall. rewrite Forall_forall in Hall.
    assert (Hin : In (js "openai", openai_models) (allModels env dyn)).
    { apply own_In. apply allModels_own_static.
      pose proof (static_own env P_openai) as Ho. simpl in Ho.
      unfold HAS_OPENAI in Eo. rewrite Eo in Ho. exact Ho. }
    apply Hall in Hin. discriminate Hin.
  - destruct (firstValue (allModels env dyn)) as [h|] eqn:Ev.
    + split; [split; [discriminate|] | discriminate].
      intros Hall. rewrite (@firstValue_none _ Hall) in Ev. discriminate.
    + split.
      * split; [intros _; apply firstValue_none_inv; assumption | reflexivity].
      * intros e H; injection H; auto.
Qed.

Lemma startup_fails_iff_witness :
  load env_blank {| providers := [ (js "idle", []) ]; unsupportedModels := [] |}
  = Throw noModels.
Proof.
  apply (proj1 (startup_fails_iff env_blank
                  {| providers := [ (js "idle", []) ]; unsupportedModels := [] |}
                  VUndefined eq_refl eq_refl)).
  repeat constructor.
Defined.

Lemma static_without_default (env : Env) :
  conditionalStaticModels (without_default env) = conditionalStaticModels env.
Proof. reflexivity. Qed.

(** X8.  A configured default that finds nothing is as good as none: the
    fallback resolver returns what it returns with [E2E_DEFAULT_MODEL]
    unset. *)
Theorem unmatched_default_ignored (env : Env) (dyn : Dynamic) (found : Value) :
  configuredFound env dyn = Normal found -> truthy found = false ->
  resolveFallback env dyn = resolveFallback (without_default env) dyn.
Proof.
  intros Hf Ht.
  rewrite (resolveFallback_after_default _ _ Hf Ht).
  rewrite (@resolveFallback_after_default (without_default env) dyn VUndefined
             eq_refl eq_refl).
  reflexivity.
Qed.

Lemma unmatched_default_ignored_witness :
  resolveFallback (with_default "acme/retired-model" env_blank) dyn_shadowing
  = resolveFallback (without_default (with_default "acme/retired-model" env_blank))
                    dyn_shadowing.
Proof.
  apply (unmatched_default_ignored
           (with_default "acme/retired-model" env_blank) dyn_shadowing
           VUndefined eq_refl eq_refl).
Defined.

(** X9.  Only the first two pieces of the configured default are read: for
    a default [p/m/rest] the resolver looks up provider [p] and model [m],
    whatever follows the second slash.  A model whose name holds a slash can
    therefore not be named by the default. *)
Theorem default_reads_two_pieces (env : Env) (dyn : Dynamic)
    (p m rest : jsstring) :
  JsString.includes JsString.slash p = false ->
  JsString.includes JsString.slash m = false ->
  configuredDefault env = p ++ JsString.slash :: m ++ JsString.slash :: rest ->
  configuredFound env dyn = lookup (allModels env dyn) p m.
Proof.
  intros Hp Hm Hc. unfold configuredFound. rewrite Hc, includes_app.
  unfold JsString.split_limit.
  rewrite (@split_at_first JsString.slash p (m ++ JsString.slash :: rest) Hp).
  rewrite (@split_at_first JsString.slash m rest Hm).
  reflexivity.
Qed.

(** A dynamic provider with a model whose name holds a slash. *)
Lemma default_reads_two_pieces_witness :
  configuredFound (with_default "hub/qwen/qwen3-8b" env_blank)
    {| providers := [ (js "hub", [ (js "qwen/qwen3-8b", Compatible 1);
                                   (js "qwen", Compatible 2) ]) ];
       unsupportedModels := [] |}
  = Normal (VModel (Compatible 2)).
Proof.
  rewrite (default_reads_two_pieces
             (with_default "hub/qwen/qwen3-8b" env_blank)
             {| providers := [ (js "hub", [ (js "qwen/qwen3-8b", Compatible 1);
                                            (js "qwen", Compatible 2) ]) ];
                unsupportedModels := [] |}
             (js "hub") (js "qwen") (js "qwen3-8b") eq_refl eq_refl eq_refl).
  reflexivity.
Defined.

(** The first model of the first present first-party provider, in source
    order. *)
Lemma firstValue_static (env : Env) :
  firstValue (conditionalStaticModels env) =
  match find (fun pr => has (presenceSignal pr env)) sourceOrder with
  | Some pr => hd_error (JsObject.values (staticModels pr env))
  | None => None
  end.
Proof.
  unfold conditionalStaticModels, sourceOrder,
    HAS_OPENAI, HAS_GOOGLE, HAS_ANTHROPIC, HAS_XAI, HAS_OPENROUTER, HAS_OLLAMA.
  simpl find. simpl presenceSignal.
  destruct (has (OPENAI_API_KEY env)), (has (GOOGLE_GENERATIVE_AI_API_KEY env)),
    (has (ANTHROPIC_API_KEY env)), (has (XAI_API_KEY env)),
    (has (OLLAMA_BASE_URL env)), (has (OPENROUTER_API_KEY env)); reflexivity.
Qed.

(** X10.  With no dynamic provider, and a configured default that finds
    nothing, the fallback is the first model of the first present provider
    in the order openai, google, anthropic, xai, ollama, openRouter, and
    start-up fails when none is present. *)
Theorem first_party_priority (env : Env) (dyn : Dynamic) (found : Value) :
  providers dyn = [] ->
  configuredFound env dyn = Normal found -> truthy found = false ->
  resolveFallback env dyn =
  match find (fun pr => has (presenceSignal pr env)) sourceOrder with
  | Some pr =>
      match JsObject.values (staticModels pr env) with
      | h :: _ => Normal (VModel h)
      | [] => Throw noModels
      end
  | None => Throw noModels
  end.
Proof.
  intros Hd Hf Ht. rewrite (resolveFallback_after_default _ _ Hf Ht).
  assert (Hall : allModels env dyn = conditionalStaticModels env).
  { unfold allModels. rewrite Hd. apply spread_into_empty, static_keys_NoDup. }
  rewrite Hall, firstValue_static. unfold sourceOrder. simpl find.
  simpl presenceSignal. unfold HAS_OPENAI.
  destruct (has (OPENAI_API_KEY env)); [reflexivity|].
  repeat match goal with
         | |- context [if has ?v then _ else _] => destruct (has v)
         end; reflexivity.
Qed.

Lemma first_party_priority_witness :
  resolveFallback (with_ollama "http://box:11434/api" env_blank) no_dynamic
  = Normal (VModel (ollama (with_ollama "http://box:11434/api" env_blank)
                           "gemma3:1b")).
Proof.
  rewrite (first_party_priority
             (with_ollama "http://box:11434/api" env_blank) no_dynamic VUndefined
             eq_refl eq_refl eq_refl).
  reflexivity.
Defined.

(** ** The unsupported set *)

(** Membership in the merged unsupported set. *)
Lemma unsupported_membership (env : Env) (dyn : Dynamic) (h : LanguageModel) :
  isToolCallUnsupportedModel env dyn h = true <->
  (exists pm, In pm knownUnsupported /\
              entry (conditionalStaticModels env) (js (fst pm)) (js (snd pm)) = Some h)
  \/ In h (unsupportedModels dyn).
Proof.
  unfold isToolCallUnsupportedModel, allUnsupportedModels, staticUnsupportedModels.
  rewrite JsSet_has_In, JsSet_from_In, in_app_iff, JsSet_from_In, in_flat_map.
  split.
  - intros [Hd | (pm & Hin & Hh)]; [right; assumption | left].
    exists pm. split; [assumption|].
    rewrite (@known_reads_own _ _ Hin) in Hh.
    destruct (entry (conditionalStaticModels env) (js (fst pm)) (js (snd pm)));
      simpl in Hh; [destruct Hh as [->|[]]; reflexivity | destruct Hh].
  - intros [(pm & Hin & He) | Hd]; [right | left; assumption].
    exists pm. split; [assumption|].
    rewrite (@known_reads_own _ _ Hin), He. left; reflexivity.
Qed.

(** An entry of the static catalog is an entry of the mapping of a present
    first-party provider. *)
Lemma static_entry (env : Env) p m h :
  entry (conditionalStaticModels env) p m = Some h <->
  exists pr, p = js (providerKey pr) /\ has (presenceSignal pr env) = true /\
             JsObject.own (staticModels pr env) m = Some h.
Proof.
  unfold entry. split.
  - destruct (JsObject.own (conditionalStaticModels env) p) as [models|] eqn:Eo;
      [|discriminate].
    intros Hm. apply own_In in Eo. apply static_In in Eo.
    destruct Eo as (pr & -> & Hpr & ->). exists pr. auto.
  - intros (pr & -> & Hpr & Hm). rewrite static_own, Hpr. exact Hm.
Qed.

(** The first-party handles are pairwise distinct objects: a handle is
    stored under one model name of one provider. *)
Lemma staticModels_distinct (env : Env) pr1 pr2 m1 m2 h :
  In (m1, h) (staticModels pr1 env) -> In (m2, h) (staticModels pr2 env) ->
  pr1 = pr2 /\ m1 = m2.
Proof.
  intros H1 H2. destruct pr1, pr2; cbv in H1, H2;
    repeat (destruct H1 as [H1|H1]); try contradiction;
    repeat (destruct H2 as [H2|H2]); try contradiction;
    split; congruence.
Qed.

Lemma staticModels_first_party (env : Env) pr m h :
  In (m, h) (staticModels pr env) -> exists b id, h = FirstParty b id.
Proof.
  intros H. destruct pr; simpl in H;
    repeat (destruct H as [H|H]); try contradiction;
    injection H; intros; subst; eexists _, _; reflexivity.
Qed.

(** X11.  A handle of the static unsupported set is always a handle of the
    merged registry, whatever the dynamic catalog holds: the static
    provider it belongs to cannot be displaced. *)
Theorem static_flagged_registered (env : Env) (dyn : Dynamic) (h : LanguageModel) :
  In h (staticUnsupportedModels env) -> reachable (allModels env dyn) h.
Proof.
  unfold staticUnsupportedModels. rewrite JsSet_from_In, in_flat_map.
  intros (pm & Hin & Hh). rewrite (@known_reads_own _ _ Hin) in Hh.
  destruct (entry (conditionalStaticModels env) (js (fst pm)) (js (snd pm)))
    as [h'|] eqn:He; simpl in Hh; [|destruct Hh].
  destruct Hh as [->|[]].
  exists (js (fst pm)), (js (snd pm)). unfold entry in *.
  destruct (JsObject.own (conditionalStaticModels env) (js (fst pm)))
    as [models|] eqn:Eo; [|discriminate].
  rewrite (@allModels_own_static env dyn _ _ Eo). exact He.
Qed.

Lemma static_flagged_registered_witness :
  reachable (allModels (with_openai "sk-test" env_blank) dyn_shadowing)
            (openai "o4-mini").
Proof.
  apply (static_flagged_registered (with_openai "sk-test" env_blank)
           dyn_shadowing (openai "o4-mini")).
  left; reflexivity.
Defined.

(** X12.  The fixed list never flags a handle of the dynamic catalog: such
    a handle is reported unsupported exactly when the dynamic catalog
    builder flagged it. *)
Theorem dynamic_flag_from_builder (env : Env) (dyn : Dynamic) (ref : N) :
  isToolCallUnsupportedModel env dyn (Compatible ref) = true <->
  In (Compatible ref) (unsupportedModels dyn).
Proof.
  rewrite unsupported_membership. split; [|auto].
  intros [(pm & _ & He) | Hd]; [|assumption].
  apply static_entry in He. destruct He as (pr & _ & _ & Hm).
  apply own_In in Hm. apply staticModels_first_party in Hm.
  destruct Hm as (b & id & Hm). discriminate Hm.
Qed.

(** X13.  When the dynamic catalog builder flags only handles of its own,
    a first-party model is reported unsupported exactly when its provider
    key and model name are one of the listed pairs: flagging one handle
    never flags another model. *)
Theorem first_party_flag_by_name (env : Env) (dyn : Dynamic)
    (pr : FirstPartyProvider) (m : jsstring) (h : LanguageModel) :
  (forall h', In h' (unsupportedModels dyn) -> exists r, h' = Compatible r) ->
  has (presenceSignal pr env) = true ->
  JsObject.own (staticModels pr env) m = Some h ->
  isToolCallUnsupportedModel env dyn h =
  existsb (fun pm => JsString.eqb (js (fst pm)) (js (providerKey pr)) &&
                     JsString.eqb (js (snd pm)) m) knownUnsupported.
Proof.
  intros Hdyn Hpr Hm.
  destruct (existsb _ knownUnsupported) eqn:Ex.
  - apply unsupported_membership. left.
    apply existsb_exists in Ex. destruct Ex as (pm & Hin & Heq).
    apply andb_true_iff in Heq. destruct Heq as [Hp Hn].
    apply JsString_eqb_eq in Hp. apply JsString_eqb_eq in Hn.
    exists pm. split; [assumption|].
    apply static_entry. exists pr. rewrite Hn. auto.
  - destruct (isToolCallUnsupportedModel env dyn h) eqn:Eh; [|reflexivity].
    apply unsupported_membership in Eh.
    destruct Eh as [(pm & Hin & He) | Hd].
    + apply static_entry in He. destruct He as (pr' & Hp & _ & Hm').
      destruct (staticModels_distinct env pr' pr (js (snd pm)) m h
                  (@own_In _ _ _ _ Hm') (@own_In _ _ _ _ Hm)) as [-> Hn].
      assert (existsb (fun pm => JsString.eqb (js (fst pm)) (js (providerKey pr)) &&
                                 JsString.eqb (js (snd pm)) m) knownUnsupported
              = true).
      { apply existsb_exists. exists pm. split; [assumption|].
        rewrite Hp, Hn, !JsString_eqb_refl. reflexivity. }
      congruence.
    + destruct (Hdyn h Hd) as [r Hr].
      apply own_In in Hm. apply staticModels_first_party in Hm.
      destruct Hm as (b & id & Hm). congruence.
Qed.

Lemma first_party_flag_by_name_witness :
  isToolCallUnsupportedModel (with_openai "sk-test" env_blank) dyn_shadowing
                             (openai "gpt-4.1") = false /\
  isToolCallUnsupportedModel (with_openai "sk-test" env_blank) dyn_shadowing
                             (openai "o4-mini") = true.
Proof.
  split.
  - rewrite (first_party_flag_by_name (with_openai "sk-test" env_blank)
               dyn_shadowing P_openai (js "gpt-4.1") (openai "gpt-4.1")).
    + reflexivity.
    + intros h' [<- | []]. exists 1%N. reflexivity.
    + reflexivity.
    + reflexivity.
  - rewrite (first_party_flag_by_name (with_openai "sk-test" env_blank)
               dyn_shadowing P_openai (js "o4-mini") (openai "o4-mini")).
    + reflexivity.
    + intros h' [<- | []]. exists 1%N. reflexivity.
    + reflexivity.
    + reflexivity.
Defined.

(** ** The local provider and the build configuration *)

(** X14.  Whenever the static catalog has an ollama handle,
    [OLLAMA_BASE_URL] is a non-blank string and the [baseURL] option the
    module passes to [createOllama] is that string itself, untrimmed: the
    right operand of [||] is not what is passed. *)
Theorem ollama_uses_configured_url (env : Env) (m : jsstring) (h : LanguageModel) :
  entry (conditionalStaticModels env) (js "ollama") m = Some h ->
  exists url id,
    OLLAMA_BASE_URL env = Some url /\ nonBlank (Some url) /\
    or_else (OLLAMA_BASE_URL env) (js "http://localhost:11434/api") = url /\
    h = FirstParty (Ollama url) id.
Proof.
  intros He. apply static_entry in He. destruct He as (pr & Hp & Hpr & Hm).
  destruct pr; try discriminate Hp.
  simpl presenceSignal in Hpr. simpl staticModels in Hm.
  pose proof (proj1 (has_true_iff _) Hpr) as Hnb.
  destruct (OLLAMA_BASE_URL env) as [[|c s]|] eqn:Eu; try discriminate Hpr.
  exists (c :: s). apply own_In in Hm. unfold ollama_models, literal, ollama in Hm.
  rewrite Eu in Hm. simpl in Hm.
  repeat (destruct Hm as [Hm|Hm]); try contradiction;
    injection Hm; intros; subst; eexists; repeat split; assumption.
Qed.

Lemma ollama_uses_configured_url_witness :
  exists url id,
    OLLAMA_BASE_URL (with_ollama " http://box:11434/api" env_blank) = Some url /\
    nonBlank (Some url) /\
    or_else (OLLAMA_BASE_URL (with_ollama " http://box:11434/api" env_blank))
            (js "http://localhost:11434/api") = url /\
    ollama (with_ollama " http://box:11434/api" env_blank) "gemma3:4b"
    = FirstParty (Ollama url) id.
Proof.
  apply (ollama_uses_configured_url
           (with_ollama " http://box:11434/api" env_blank) (js "gemma3:4b")).
  reflexivity.
Defined.

Lemma blank_iff_all_white_space (s : jsstring) :
  has (Some s) = false <->
  Forall (fun c => JsString.is_white_space c = true) s.
Proof.
  split.
  - intros Hh. apply Forall_forall. intros c Hin.
    destruct (JsString.is_white_space c) eqn:Ec; [reflexivity|].
    assert (has (Some s) = true).
    { apply has_true_iff, nonBlank_untrimmed. exists c. auto. }
    congruence.
  - intros Hall. destruct (has (Some s)) eqn:Hh; [|reflexivity].
    apply has_true_iff, nonBlank_untrimmed in Hh. destruct Hh as (c & Hin & Hc).
    rewrite Forall_forall in Hall. rewrite (Hall c Hin) in Hc. discriminate.
Qed.

(** X15.  When the build configuration and the module read the same
    [OPENAI_API_KEY], they test it differently.  Whenever the static catalog
    has the openai key ([HAS_OPENAI]), the build flag
    [NEXT_PUBLIC_OPENAI_API_KEY_DEFINED] is ["1"]; the flag is ["1"] while
    the static catalog has no openai key exactly when the value is not empty
    but consists of white space only. *)
Theorem openai_flag_vs_static_catalog (build run : Env)
    (standalone no_https : option jsstring) :
  OPENAI_API_KEY build = OPENAI_API_KEY run ->
  (HAS_OPENAI run = true ->
   NextConfig.NEXT_PUBLIC_OPENAI_API_KEY_DEFINED
     (NextConfig.env (NextConfig.nextConfig build standalone no_https)) = js "1") /\
  ((NextConfig.NEXT_PUBLIC_OPENAI_API_KEY_DEFINED
      (NextConfig.env (NextConfig.nextConfig build standalone no_https)) = js "1" /\
    JsObject.own (conditionalStaticModels run) (js "openai") = None) <->
   exists s, OPENAI_API_KEY run = Some s /\ s <> [] /\
             Forall (fun c => JsString.is_white_space c = true) s).
Proof.
  intros Hsame.
  pose proof (static_own run P_openai) as Ho. simpl in Ho.
  unfold HAS_OPENAI. simpl. unfold NextConfig.isOpenAIKeyPresent, NextConfig.defined.
  rewrite Hsame.
  destruct (OPENAI_API_KEY run) as [[|c s]|] eqn:Ek.
  - split; [discriminate|]. split.
    + intros [H _]; discriminate H.
    + intros (s & Hs & Hne & _). injection Hs; intros; subst. congruence.
  - split; [reflexivity|]. split.
    + intros [_ Hn]. exists (c :: s). split; [reflexivity|].
      split; [discriminate|]. apply blank_iff_all_white_space.
      rewrite Hn in Ho. revert Ho.
      match goal with
      | |- context [if ?b then _ else _] => destruct b
      end; [intros H; discriminate H | reflexivity].
    + intros (s' & Hs & _ & Hall). injection Hs; intros; subst s'.
      apply blank_iff_all_white_space in Hall. rewrite Hall in Ho.
      split; [reflexivity | exact Ho].
  - split; [discriminate|]. split.
    + intros [H _]; discriminate H.
    + intros (s & Hs & _). discriminate Hs.
Qed.

Lemma openai_flag_vs_static_catalog_witness :
  NextConfig.NEXT_PUBLIC_OPENAI_API_KEY_DEFINED
    (NextConfig.env (NextConfig.nextConfig (with_openai "sk-test" env_blank)
                                           None None)) = js "1" /\
  NextConfig.NEXT_PUBLIC_OPENAI_API_KEY_DEFINED
    (NextConfig.env (NextConfig.nextConfig (with_openai "   " env_blank)
                                           None None)) = js "1" /\
  JsObject.own (conditionalStaticModels
                  (with_ollama "http://box:11434/api" (with_openai "   " env_blank)))
               (js "openai")
  = None.
Proof.
  split.
  - apply (proj1 (openai_flag_vs_static_catalog
                    (with_openai "sk-test" env_blank)
                    (with_default "openai/gpt-4.1" (with_openai "sk-test" env_blank))
                    None None eq_refl)).
    reflexivity.
  - apply (proj2 (proj2 (openai_flag_vs_static_catalog
                           (with_openai "   " env_blank)
                           (with_ollama "http://box:11434/api"
                                        (with_openai "   " env_blank))
                           None None eq_refl))).
    exists (js "   "). split; [reflexivity|]. split; [discriminate|].
    repeat constructor.
Defined.
